(** * STM32RTC: the Arduino RTC wrapper of [src/STM32RTC.cpp]

    The wrapper caches the calendar, time and alarm fields of the RTC in an
    object, and talks to the peripheral through the driver functions
    [RTC_GetTime], [RTC_SetTime], [RTC_GetDate], [RTC_SetDate],
    [RTC_StartAlarm], [RTC_StopAlarm] and [RTC_GetAlarm].  The driver and the
    header [STM32RTC.h] are not among the sources: the driver is an interface
    ([HAL]) every definition is parametric in, and what the header declares
    (enumerator values, default arguments) is the record [Header].

    Modelled: [begin], [end], the alarm switch, every get and set function
    of the clock, the calendar and the alarm, the epoch functions and the
    three synchronisations.  The clock source, the prescalers, the interrupt
    callbacks and [configForLowPower] (compiled only with the power module)
    are left out. *)

From Stdlib Require Import ZArith List Bool Lia.
Import ListNotations.
Local Open Scope Z_scope.

(** ** Machine integers *)

(** [uint8_t] and [uint32_t] values are integers of [Z]; a conversion to the
    type is the reduction modulo its size. *)
Definition u8 (x : Z) : Z := x mod 256.
Definition u32 (x : Z) : Z := x mod 4294967296.

(** [#define EPOCH_TIME_OFF 946684800] and [#define EPOCH_TIME_YEAR_OFF 100]. *)
Definition EPOCH_TIME_OFF : Z := 946684800.
Definition EPOCH_TIME_YEAR_OFF : Z := 100.

(** ** Enumerations of the wrapper and of the driver *)

Inductive Hour_Format : Type := HOUR_12 | HOUR_24.
Inductive AM_PM : Type := AM | PM.
Inductive Source_Clock : Type := LSI_CLOCK | LSE_CLOCK | HSE_CLOCK.
Inductive Alarm_Match : Type :=
| MATCH_OFF
| MATCH_SS
| MATCH_MMSS
| MATCH_HHMMSS
| MATCH_DHHMMSS
| MATCH_MMDDHHMMSS
| MATCH_YYMMDDHHMMSS.

(** The driver's own enumerations ([::LSI_CLOCK] and the like are written
    [drv_LSI_CLOCK]). *)
Inductive hourFormat_t : Type := HOUR_FORMAT_12 | HOUR_FORMAT_24.
Inductive hourAM_PM_t : Type := HOUR_AM | HOUR_PM.
Inductive sourceClock_t : Type := drv_LSI_CLOCK | drv_LSE_CLOCK | drv_HSE_CLOCK.

Definition AM_PM_eqb (a b : AM_PM) : bool :=
  match a, b with AM, AM | PM, PM => true | _, _ => false end.

Definition Hour_Format_eqb (a b : Hour_Format) : bool :=
  match a, b with
  | HOUR_12, HOUR_12 | HOUR_24, HOUR_24 => true
  | _, _ => false
  end.

Definition hourAM_PM_eqb (a b : hourAM_PM_t) : bool :=
  match a, b with
  | HOUR_AM, HOUR_AM | HOUR_PM, HOUR_PM => true
  | _, _ => false
  end.

(** ** The C library's calendar *)

(** [struct tm] of [<time.h>]. *)
Record tm : Type := mk_tm {
  tm_sec : Z;
  tm_min : Z;
  tm_hour : Z;
  tm_mday : Z;
  tm_mon : Z;
  tm_year : Z;
  tm_wday : Z;
  tm_yday : Z;
  tm_isdst : Z
}.

(** Day number (days since 1970-01-01) of the civil date [y]-[m]-[d] of the
    proleptic Gregorian calendar, [m] in 1..12; [d] may lie outside the month,
    the count is linear in it. *)
Definition days_from_civil (y m d : Z) : Z :=
  let y := if m <=? 2 then y - 1 else y in
  let era := y / 400 in
  let yoe := y - era * 400 in
  let doy := (153 * (if 2 <? m then m - 3 else m + 9) + 2) / 5 + d - 1 in
  let doe := yoe * 365 + yoe / 4 - yoe / 100 + doy in
  era * 146097 + doe - 719468.

(** The civil date (year, month 1..12, day 1..31) of a day number. *)
Definition civil_from_days (z : Z) : Z * Z * Z :=
  let z := z + 719468 in
  let era := z / 146097 in
  let doe := z - era * 146097 in
  let yoe := (doe - doe / 1460 + doe / 36524 - doe / 146096) / 365 in
  let y := yoe + era * 400 in
  let doy := doe - (365 * yoe + yoe / 4 - yoe / 100) in
  let mp := (5 * doy + 2) / 153 in
  let d := doy - (153 * mp + 2) / 5 + 1 in
  let m := if mp <? 10 then mp + 3 else mp - 9 in
  (if m <=? 2 then y + 1 else y, m, d).

(** Modelled from the spec: [gmtime] of the C library, which is not part of
    the sources; "the standard UTC Gregorian-calendar decomposition" of a
    [time_t], wide enough here to hold every [uint32_t]: [tm_year] counts from
    1900, [tm_mon] from 0, [tm_wday] from Sunday = 0, [tm_yday] from 0. *)
Definition gmtime (t : Z) : tm :=
  let days := t / 86400 in
  let rem := t mod 86400 in
  let '(y, m, d) := civil_from_days days in
  {| tm_sec := rem mod 60;
     tm_min := (rem / 60) mod 60;
     tm_hour := rem / 3600;
     tm_mday := d;
     tm_mon := m - 1;
     tm_year := y - 1900;
     tm_wday := (days + 4) mod 7;
     tm_yday := days - days_from_civil y 1 1;
     tm_isdst := 0 |}.

(** Modelled from the spec: [mktime] of the C library, which is not part of
    the sources; "the standard UTC Gregorian-calendar recomposition", with no
    time zone or daylight saving.  As the C standard has it, the fields need
    not be in their ranges (a month outside 0..11 carries into the year, and
    days, hours, minutes and seconds count linearly), and [tm_wday] and
    [tm_yday] are ignored. *)
Definition mktime (b : tm) : Z :=
  let y := 1900 + tm_year b + tm_mon b / 12 in
  let m := tm_mon b mod 12 + 1 in
  let days := days_from_civil y m (tm_mday b) in
  days * 86400 + tm_hour b * 3600 + tm_min b * 60 + tm_sec b.

(** ** The driver interface *)

(** What [RTC_GetTime], [RTC_GetDate] and [RTC_GetAlarm] read and write
    through their pointer arguments. *)
Record hal_time : Type := mk_hal_time {
  ht_hours : Z;
  ht_minutes : Z;
  ht_seconds : Z;
  ht_subSeconds : Z;
  ht_period : hourAM_PM_t
}.

Record hal_date : Type := mk_hal_date {
  hd_year : Z;
  hd_month : Z;
  hd_day : Z;
  hd_wday : Z
}.

Record hal_alarm : Type := mk_hal_alarm {
  ha_day : Z;
  ha_hours : Z;
  ha_minutes : Z;
  ha_seconds : Z;
  ha_subSeconds : Z;
  ha_period : hourAM_PM_t
}.

(** The driver over a hardware state [HW].  A function with pointer arguments
    takes what the pointers hold at the call and returns what they hold after
    it, so that a driver that leaves some of them alone is covered; every
    function may change the hardware.  [RTC_GetAlarm] also returns what it
    writes to [*match], which the wrapper passes uninitialised. *)
Record HAL (HW : Type) : Type := mk_HAL {
  RTC_init : hourFormat_t -> sourceClock_t -> bool -> HW -> bool * HW;
  RTC_DeInit : HW -> HW;
  RTC_GetTime : hal_time -> HW -> hal_time * HW;
  RTC_SetTime : Z -> Z -> Z -> Z -> hourAM_PM_t -> HW -> HW;
  RTC_GetDate : hal_date -> HW -> hal_date * HW;
  RTC_SetDate : Z -> Z -> Z -> Z -> HW -> HW;
  RTC_StartAlarm : Z -> Z -> Z -> Z -> Z -> hourAM_PM_t -> Z -> HW -> HW;
  RTC_StopAlarm : HW -> HW;
  RTC_GetAlarm : hal_alarm -> HW -> hal_alarm * Z * HW;
  RTC_WEEKDAY_SUNDAY : Z
}.

Arguments RTC_init {HW} _ _ _ _ _.
Arguments RTC_DeInit {HW} _ _.
Arguments RTC_GetTime {HW} _ _ _.
Arguments RTC_SetTime {HW} _ _ _ _ _ _ _.
Arguments RTC_GetDate {HW} _ _ _.
Arguments RTC_SetDate {HW} _ _ _ _ _ _.
Arguments RTC_StartAlarm {HW} _ _ _ _ _ _ _ _ _.
Arguments RTC_StopAlarm {HW} _ _.
Arguments RTC_GetAlarm {HW} _ _ _.
Arguments RTC_WEEKDAY_SUNDAY {HW} _.

(** The driver calls the wrapper makes, with the arguments passed by value. *)
Inductive HalCall : Type :=
| Call_RTC_init (format : hourFormat_t) (source : sourceClock_t) (reset : bool)
| Call_RTC_DeInit
| Call_RTC_GetTime
| Call_RTC_SetTime (hours minutes seconds subSeconds : Z) (period : hourAM_PM_t)
| Call_RTC_GetDate
| Call_RTC_SetDate (year month day wday : Z)
| Call_RTC_StartAlarm (day hours minutes seconds subSeconds : Z)
                      (period : hourAM_PM_t) (mask : Z)
| Call_RTC_StopAlarm
| Call_RTC_GetAlarm.

(** The calls that write the clock, the calendar or the alarm to the
    hardware, and the calls that read them. *)
Definition is_HAL_set (c : HalCall) : bool :=
  match c with
  | Call_RTC_SetTime _ _ _ _ _ | Call_RTC_SetDate _ _ _ _
  | Call_RTC_StartAlarm _ _ _ _ _ _ _ => true
  | _ => false
  end.

Definition is_HAL_get (c : HalCall) : bool :=
  match c with
  | Call_RTC_GetTime | Call_RTC_GetDate | Call_RTC_GetAlarm => true
  | _ => false
  end.

(** ** What [STM32RTC.h] declares *)

(** The header is not among the sources; the wrapper uses from it the values
    of the [Alarm_Match] enumerators (the [static_cast<uint8_t>] of
    [enableAlarm] and the [switch] of [syncAlarmTime]) and two default
    arguments: the [subSeconds] of [setEpoch] (used by [setY2kEpoch]) and the
    [period] of [setAlarmHours] (used by [setAlarmEpoch]). *)
Record Header : Type := mk_Header {
  Alarm_Match_value : Alarm_Match -> Z;
  setEpoch_default_subSeconds : Z;
  setAlarmHours_default_period : AM_PM
}.

(** ** The object *)

(** The data members of class [STM32RTC]; [_timeSet] is its static member. *)
Record STM32RTC : Type := mk_STM32RTC {
  _format : Hour_Format;
  _hoursPeriod : AM_PM;
  _hours : Z;
  _minutes : Z;
  _seconds : Z;
  _subSeconds : Z;
  _year : Z;
  _month : Z;
  _day : Z;
  _wday : Z;
  _alarmDay : Z;
  _alarmHours : Z;
  _alarmMinutes : Z;
  _alarmSeconds : Z;
  _alarmSubSeconds : Z;
  _alarmPeriod : AM_PM;
  _alarmMatch : Alarm_Match;
  _clockSource : Source_Clock;
  _timeSet : bool
}.

(** Assignment to one member. *)
Definition set_format (v : Hour_Format) (o : STM32RTC) : STM32RTC :=
  {| _format := v; _hoursPeriod := _hoursPeriod o; _hours := _hours o;
     _minutes := _minutes o; _seconds := _seconds o;
     _subSeconds := _subSeconds o; _year := _year o; _month := _month o;
     _day := _day o; _wday := _wday o; _alarmDay := _alarmDay o;
     _alarmHours := _alarmHours o; _alarmMinutes := _alarmMinutes o;
     _alarmSeconds := _alarmSeconds o;
     _alarmSubSeconds := _alarmSubSeconds o; _alarmPeriod := _alarmPeriod o;
     _alarmMatch := _alarmMatch o; _clockSource := _clockSource o;
     _timeSet := _timeSet o |}.

Definition set_hoursPeriod (v : AM_PM) (o : STM32RTC) : STM32RTC :=
  {| _format := _format o; _hoursPeriod := v; _hours := _hours o;
     _minutes := _minutes o; _seconds := _seconds o;
     _subSeconds := _subSeconds o; _year := _year o; _month := _month o;
     _day := _day o; _wday := _wday o; _alarmDay := _alarmDay o;
     _alarmHours := _alarmHours o; _alarmMinutes := _alarmMinutes o;
     _alarmSeconds := _alarmSeconds o;
     _alarmSubSeconds := _alarmSubSeconds o; _alarmPeriod := _alarmPeriod o;
     _alarmMatch := _alarmMatch o; _clockSource := _clockSource o;
     _timeSet := _timeSet o |}.

Definition set_hours (v : Z) (o : STM32RTC) : STM32RTC :=
  {| _format := _format o; _hoursPeriod := _hoursPeriod o; _hours := v;
     _minutes := _minutes o; _seconds := _seconds o;
     _subSeconds := _subSeconds o; _year := _year o; _month := _month o;
     _day := _day o; _wday := _wday o; _alarmDay := _alarmDay o;
     _alarmHours := _alarmHours o; _alarmMinutes := _alarmMinutes o;
     _alarmSeconds := _alarmSeconds o;
     _alarmSubSeconds := _alarmSubSeconds o; _alarmPeriod := _alarmPeriod o;
     _alarmMatch := _alarmMatch o; _clockSource := _clockSource o;
     _timeSet := _timeSet o |}.

Definition set_minutes (v : Z) (o : STM32RTC) : STM32RTC :=
  {| _format := _format o; _hoursPeriod := _hoursPeriod o;
     _hours := _hours o; _minutes := v; _seconds := _seconds o;
     _subSeconds := _subSeconds o; _year := _year o; _month := _month o;
     _day := _day o; _wday := _wday o; _alarmDay := _alarmDay o;
     _alarmHours := _alarmHours o; _alarmMinutes := _alarmMinutes o;
     _alarmSeconds := _alarmSeconds o;
     _alarmSubSeconds := _alarmSubSeconds o; _alarmPeriod := _alarmPeriod o;
     _alarmMatch := _alarmMatch o; _clockSource := _clockSource o;
     _timeSet := _timeSet o |}.

Definition set_seconds (v : Z) (o : STM32RTC) : STM32RTC :=
  {| _format := _format o; _hoursPeriod := _hoursPeriod o;
     _hours := _hours o; _minutes := _minutes o; _seconds := v;
     _subSeconds := _subSeconds o; _year := _year o; _month := _month o;
     _day := _day o; _wday := _wday o; _alarmDay := _alarmDay o;
     _alarmHours := _alarmHours o; _alarmMinutes := _alarmMinutes o;
     _alarmSeconds := _alarmSeconds o;
     _alarmSubSeconds := _alarmSubSeconds o; _alarmPeriod := _alarmPeriod o;
     _alarmMatch := _alarmMatch o; _clockSource := _clockSource o;
     _timeSet := _timeSet o |}.

Definition set_subSeconds (v : Z) (o : STM32RTC) : STM32RTC :=
  {| _format := _format o; _hoursPeriod := _hoursPeriod o;
     _hours := _hours o; _minutes := _minutes o; _seconds := _seconds o;
     _subSeconds := v; _year := _year o; _month := _month o; _day := _day o;
     _wday := _wday o; _alarmDay := _alarmDay o;
     _alarmHours := _alarmHours o; _alarmMinutes := _alarmMinutes o;
     _alarmSeconds := _alarmSeconds o;
     _alarmSubSeconds := _alarmSubSeconds o; _alarmPeriod := _alarmPeriod o;
     _alarmMatch := _alarmMatch o; _clockSource := _clockSource o;
     _timeSet := _timeSet o |}.

Definition set_year (v : Z) (o : STM32RTC) : STM32RTC :=
  {| _format := _format o; _hoursPeriod := _hoursPeriod o;
     _hours := _hours o; _minutes := _minutes o; _seconds := _seconds o;
     _subSeconds := _subSeconds o; _year := v; _month := _month o;
     _day := _day o; _wday := _wday o; _alarmDay := _alarmDay o;
     _alarmHours := _alarmHours o; _alarmMinutes := _alarmMinutes o;
     _alarmSeconds := _alarmSeconds o;
     _alarmSubSeconds := _alarmSubSeconds o; _alarmPeriod := _alarmPeriod o;
     _alarmMatch := _alarmMatch o; _clockSource := _clockSource o;
     _timeSet := _timeSet o |}.

Definition set_month (v : Z) (o : STM32RTC) : STM32RTC :=
  {| _format := _format o; _hoursPeriod := _hoursPeriod o;
     _hours := _hours o; _minutes := _minutes o; _seconds := _seconds o;
     _subSeconds := _subSeconds o; _year := _year o; _month := v;
     _day := _day o; _wday := _wday o; _alarmDay := _alarmDay o;
     _alarmHours := _alarmHours o; _alarmMinutes := _alarmMinutes o;
     _alarmSeconds := _alarmSeconds o;
     _alarmSubSeconds := _alarmSubSeconds o; _alarmPeriod := _alarmPeriod o;
     _alarmMatch := _alarmMatch o; _clockSource := _clockSource o;
     _timeSet := _timeSet o |}.

Definition set_day (v : Z) (o : STM32RTC) : STM32RTC :=
  {| _format := _format o; _hoursPeriod := _hoursPeriod o;
     _hours := _hours o; _minutes := _minutes o; _seconds := _seconds o;
     _subSeconds := _subSeconds o; _year := _year o; _month := _month o;
     _day := v; _wday := _wday o; _alarmDay := _alarmDay o;
     _alarmHours := _alarmHours o; _alarmMinutes := _alarmMinutes o;
     _alarmSeconds := _alarmSeconds o;
     _alarmSubSeconds := _alarmSubSeconds o; _alarmPeriod := _alarmPeriod o;
     _alarmMatch := _alarmMatch o; _clockSource := _clockSource o;
     _timeSet := _timeSet o |}.

Definition set_wday (v : Z) (o : STM32RTC) : STM32RTC :=
  {| _format := _format o; _hoursPeriod := _hoursPeriod o;
     _hours := _hours o; _minutes := _minutes o; _seconds := _seconds o;
     _subSeconds := _subSeconds o; _year := _year o; _month := _month o;
     _day := _day o; _wday := v; _alarmDay := _alarmDay o;
     _alarmHours := _alarmHours o; _alarmMinutes := _alarmMinutes o;
     _alarmSeconds := _alarmSeconds o;
     _alarmSubSeconds := _alarmSubSeconds o; _alarmPeriod := _alarmPeriod o;
     _alarmMatch := _alarmMatch o; _clockSource := _clockSource o;
     _timeSet := _timeSet o |}.

Definition set_alarmDay (v : Z) (o : STM32RTC) : STM32RTC :=
  {| _format := _format o; _hoursPeriod := _hoursPeriod o;
     _hours := _hours o; _minutes := _minutes o; _seconds := _seconds o;
     _subSeconds := _subSeconds o; _year := _year o; _month := _month o;
     _day := _day o; _wday := _wday o; _alarmDay := v;
     _alarmHours := _alarmHours o; _alarmMinutes := _alarmMinutes o;
     _alarmSeconds := _alarmSeconds o;
     _alarmSubSeconds := _alarmSubSeconds o; _alarmPeriod := _alarmPeriod o;
     _alarmMatch := _alarmMatch o; _clockSource := _clockSource o;
     _timeSet := _timeSet o |}.

Definition set_alarmHours (v : Z) (o : STM32RTC) : STM32RTC :=
  {| _format := _format o; _hoursPeriod := _hoursPeriod o;
     _hours := _hours o; _minutes := _minutes o; _seconds := _seconds o;
     _subSeconds := _subSeconds o; _year := _year o; _month := _month o;
     _day := _day o; _wday := _wday o; _alarmDay := _alarmDay o;
     _alarmHours := v; _alarmMinutes := _alarmMinutes o;
     _alarmSeconds := _alarmSeconds o;
     _alarmSubSeconds := _alarmSubSeconds o; _alarmPeriod := _alarmPeriod o;
     _alarmMatch := _alarmMatch o; _clockSource := _clockSource o;
     _timeSet := _timeSet o |}.

Definition set_alarmMinutes (v : Z) (o : STM32RTC) : STM32RTC :=
  {| _format := _format o; _hoursPeriod := _hoursPeriod o;
     _hours := _hours o; _minutes := _minutes o; _seconds := _seconds o;
     _subSeconds := _subSeconds o; _year := _year o; _month := _month o;
     _day := _day o; _wday := _wday o; _alarmDay := _alarmDay o;
     _alarmHours := _alarmHours o; _alarmMinutes := v;
     _alarmSeconds := _alarmSeconds o;
     _alarmSubSeconds := _alarmSubSeconds o; _alarmPeriod := _alarmPeriod o;
     _alarmMatch := _alarmMatch o; _clockSource := _clockSource o;
     _timeSet := _timeSet o |}.

Definition set_alarmSeconds (v : Z) (o : STM32RTC) : STM32RTC :=
  {| _format := _format o; _hoursPeriod := _hoursPeriod o;
     _hours := _hours o; _minutes := _minutes o; _seconds := _seconds o;
     _subSeconds := _subSeconds o; _year := _year o; _month := _month o;
     _day := _day o; _wday := _wday o; _alarmDay := _alarmDay o;
     _alarmHours := _alarmHours o; _alarmMinutes := _alarmMinutes o;
     _alarmSeconds := v; _alarmSubSeconds := _alarmSubSeconds o;
     _alarmPeriod := _alarmPeriod o; _alarmMatch := _alarmMatch o;
     _clockSource := _clockSource o; _timeSet := _timeSet o |}.

Definition set_alarmSubSeconds (v : Z) (o : STM32RTC) : STM32RTC :=
  {| _format := _format o; _hoursPeriod := _hoursPeriod o;
     _hours := _hours o; _minutes := _minutes o; _seconds := _seconds o;
     _subSeconds := _subSeconds o; _year := _year o; _month := _month o;
     _day := _day o; _wday := _wday o; _alarmDay := _alarmDay o;
     _alarmHours := _alarmHours o; _alarmMinutes := _alarmMinutes o;
     _alarmSeconds := _alarmSeconds o; _alarmSubSeconds := v;
     _alarmPeriod := _alarmPeriod o; _alarmMatch := _alarmMatch o;
     _clockSource := _clockSource o; _timeSet := _timeSet o |}.

Definition set_alarmPeriod (v : AM_PM) (o : STM32RTC) : STM32RTC :=
  {| _format := _format o; _hoursPeriod := _hoursPeriod o;
     _hours := _hours o; _minutes := _minutes o; _seconds := _seconds o;
     _subSeconds := _subSeconds o; _year := _year o; _month := _month o;
     _day := _day o; _wday := _wday o; _alarmDay := _alarmDay o;
     _alarmHours := _alarmHours o; _alarmMinutes := _alarmMinutes o;
     _alarmSeconds := _alarmSeconds o;
     _alarmSubSeconds := _alarmSubSeconds o; _alarmPeriod := v;
     _alarmMatch := _alarmMatch o; _clockSource := _clockSource o;
     _timeSet := _timeSet o |}.

Definition set_alarmMatch (v : Alarm_Match) (o : STM32RTC) : STM32RTC :=
  {| _format := _format o; _hoursPeriod := _hoursPeriod o;
     _hours := _hours o; _minutes := _minutes o; _seconds := _seconds o;
     _subSeconds := _subSeconds o; _year := _year o; _month := _month o;
     _day := _day o; _wday := _wday o; _alarmDay := _alarmDay o;
     _alarmHours := _alarmHours o; _alarmMinutes := _alarmMinutes o;
     _alarmSeconds := _alarmSeconds o;
     _alarmSubSeconds := _alarmSubSeconds o; _alarmPeriod := _alarmPeriod o;
     _alarmMatch := v; _clockSource := _clockSource o;
     _timeSet := _timeSet o |}.

Definition set_clockSource (v : Source_Clock) (o : STM32RTC) : STM32RTC :=
  {| _format := _format o; _hoursPeriod := _hoursPeriod o;
     _hours := _hours o; _minutes := _minutes o; _seconds := _seconds o;
     _subSeconds := _subSeconds o; _year := _year o; _month := _month o;
     _day := _day o; _wday := _wday o; _alarmDay := _alarmDay o;
     _alarmHours := _alarmHours o; _alarmMinutes := _alarmMinutes o;
     _alarmSeconds := _alarmSeconds o;
     _alarmSubSeconds := _alarmSubSeconds o; _alarmPeriod := _alarmPeriod o;
     _alarmMatch := _alarmMatch o; _clockSource := v;
     _timeSet := _timeSet o |}.

Definition set_timeSet (v : bool) (o : STM32RTC) : STM32RTC :=
  {| _format := _format o; _hoursPeriod := _hoursPeriod o;
     _hours := _hours o; _minutes := _minutes o; _seconds := _seconds o;
     _subSeconds := _subSeconds o; _year := _year o; _month := _month o;
     _day := _day o; _wday := _wday o; _alarmDay := _alarmDay o;
     _alarmHours := _alarmHours o; _alarmMinutes := _alarmMinutes o;
     _alarmSeconds := _alarmSeconds o;
     _alarmSubSeconds := _alarmSubSeconds o; _alarmPeriod := _alarmPeriod o;
     _alarmMatch := _alarmMatch o; _clockSource := _clockSource o;
     _timeSet := v |}.

(** ** The wrapper over a driver *)

(** The object, the hardware behind the driver, and the log of the driver
    calls made so far, oldest first. *)
Record Machine (HW : Type) : Type := mk_Machine {
  rtc : STM32RTC;
  hw : HW;
  calls : list HalCall
}.

Arguments mk_Machine {HW} _ _ _.
Arguments rtc {HW} _.
Arguments hw {HW} _.
Arguments calls {HW} _.

(** A member function is a computation over the machine. *)
Definition M (HW A : Type) : Type := Machine HW -> A * Machine HW.

Definition ret {HW A : Type} (a : A) : M HW A := fun m => (a, m).

Definition bind {HW A B : Type} (c : M HW A) (k : A -> M HW B) : M HW B :=
  fun m => let (a, m') := c m in k a m'.

Definition eval {HW A : Type} (c : M HW A) (m : Machine HW) : A := fst (c m).
Definition exec {HW A : Type} (c : M HW A) (m : Machine HW) : Machine HW :=
  snd (c m).

Declare Scope rtc_scope.
Delimit Scope rtc_scope with rtc.
Notation "x <- c1 ;; c2" := (bind c1 (fun x => c2))
  (at level 61, c1 at next level, right associativity) : rtc_scope.
Notation "c1 ;; c2" := (bind c1 (fun _ => c2))
  (at level 61, right associativity) : rtc_scope.
Local Open Scope rtc_scope.

(** The driver calls made between two machines. *)
Definition new_calls {HW : Type} (m m' : Machine HW) : list HalCall :=
  skipn (length (calls m)) (calls m').

Section Wrapper.

Context {HW : Type}.
Variable hal : HAL HW.
Variable hdr : Header.

Abbreviation M := (M HW).

(** *** Members and driver calls *)

Definition this : M STM32RTC := fun m => (rtc m, m).

Definition assign (f : STM32RTC -> STM32RTC) : M unit :=
  fun m => (tt, mk_Machine (f (rtc m)) (hw m) (calls m)).

Definition when (b : bool) (c : M unit) : M unit :=
  if b then c else ret tt.

Definition call_RTC_init (format : hourFormat_t) (source : sourceClock_t)
    (reset : bool) : M bool :=
  fun m =>
    let r := RTC_init hal format source reset (hw m) in
    (fst r, mk_Machine (rtc m) (snd r)
              (calls m ++ [Call_RTC_init format source reset])).

Definition call_RTC_DeInit : M unit :=
  fun m =>
    (tt, mk_Machine (rtc m) (RTC_DeInit hal (hw m))
           (calls m ++ [Call_RTC_DeInit])).

Definition call_RTC_GetTime (t : hal_time) : M hal_time :=
  fun m =>
    let r := RTC_GetTime hal t (hw m) in
    (fst r, mk_Machine (rtc m) (snd r) (calls m ++ [Call_RTC_GetTime])).

Definition call_RTC_SetTime (hours minutes seconds subSeconds : Z)
    (period : hourAM_PM_t) : M unit :=
  fun m =>
    (tt, mk_Machine (rtc m)
           (RTC_SetTime hal hours minutes seconds subSeconds period (hw m))
           (calls m ++
            [Call_RTC_SetTime hours minutes seconds subSeconds period])).

Definition call_RTC_GetDate (d : hal_date) : M hal_date :=
  fun m =>
    let r := RTC_GetDate hal d (hw m) in
    (fst r, mk_Machine (rtc m) (snd r) (calls m ++ [Call_RTC_GetDate])).

Definition call_RTC_SetDate (year month day wday : Z) : M unit :=
  fun m =>
    (tt, mk_Machine (rtc m) (RTC_SetDate hal year month day wday (hw m))
           (calls m ++ [Call_RTC_SetDate year month day wday])).

Definition call_RTC_StartAlarm (day hours minutes seconds subSeconds : Z)
    (period : hourAM_PM_t) (mask : Z) : M unit :=
  fun m =>
    (tt, mk_Machine (rtc m)
           (RTC_StartAlarm hal day hours minutes seconds subSeconds period
              mask (hw m))
           (calls m ++
            [Call_RTC_StartAlarm day hours minutes seconds subSeconds
               period mask])).

Definition call_RTC_StopAlarm : M unit :=
  fun m =>
    (tt, mk_Machine (rtc m) (RTC_StopAlarm hal (hw m))
           (calls m ++ [Call_RTC_StopAlarm])).

Definition call_RTC_GetAlarm (a : hal_alarm) : M (hal_alarm * Z) :=
  fun m =>
    let r := RTC_GetAlarm hal a (hw m) in
    (fst r, mk_Machine (rtc m) (snd r) (calls m ++ [Call_RTC_GetAlarm])).

(** *** Synchronisation from the hardware *)

(** [STM32RTC::syncTime].  The driver writes through [uint8_t] and
    [uint32_t] pointers, hence the reductions. *)
Definition syncTime : M unit :=
  o <- this ;;
  let p := HOUR_AM in
  t <- call_RTC_GetTime
         (mk_hal_time (_hours o) (_minutes o) (_seconds o) (_subSeconds o) p) ;;
  assign (set_hours (u8 (ht_hours t))) ;;
  assign (set_minutes (u8 (ht_minutes t))) ;;
  assign (set_seconds (u8 (ht_seconds t))) ;;
  assign (set_subSeconds (u32 (ht_subSeconds t))) ;;
  let p := ht_period t in
  assign (set_hoursPeriod (if hourAM_PM_eqb p HOUR_AM then AM else PM)).

(** [STM32RTC::syncDate]. *)
Definition syncDate : M unit :=
  o <- this ;;
  d <- call_RTC_GetDate
         (mk_hal_date (_year o) (_month o) (_day o) (_wday o)) ;;
  assign (set_year (u8 (hd_year d))) ;;
  assign (set_month (u8 (hd_month d))) ;;
  assign (set_day (u8 (hd_day d))) ;;
  assign (set_wday (u8 (hd_wday d))).

(** The [switch] of [syncAlarmTime] on [static_cast<Alarm_Match>(match)]:
    an enumerator for its own value, [MATCH_OFF] by default. *)
Definition Alarm_Match_of_uint8 (v : Z) : Alarm_Match :=
  if v =? Alarm_Match_value hdr MATCH_OFF then MATCH_OFF
  else if v =? Alarm_Match_value hdr MATCH_YYMMDDHHMMSS then MATCH_YYMMDDHHMMSS
  else if v =? Alarm_Match_value hdr MATCH_MMDDHHMMSS then MATCH_MMDDHHMMSS
  else if v =? Alarm_Match_value hdr MATCH_DHHMMSS then MATCH_DHHMMSS
  else if v =? Alarm_Match_value hdr MATCH_HHMMSS then MATCH_HHMMSS
  else if v =? Alarm_Match_value hdr MATCH_MMSS then MATCH_MMSS
  else if v =? Alarm_Match_value hdr MATCH_SS then MATCH_SS
  else MATCH_OFF.

(** [STM32RTC::syncAlarmTime]. *)
Definition syncAlarmTime : M unit :=
  o <- this ;;
  let p := HOUR_AM in
  r <- call_RTC_GetAlarm
         (mk_hal_alarm (_alarmDay o) (_alarmHours o) (_alarmMinutes o)
            (_alarmSeconds o) (_alarmSubSeconds o) p) ;;
  let a := fst r in
  let match_ := u8 (snd r) in
  assign (set_alarmDay (u8 (ha_day a))) ;;
  assign (set_alarmHours (u8 (ha_hours a))) ;;
  assign (set_alarmMinutes (u8 (ha_minutes a))) ;;
  assign (set_alarmSeconds (u8 (ha_seconds a))) ;;
  assign (set_alarmSubSeconds (u32 (ha_subSeconds a))) ;;
  let p := ha_period a in
  assign (set_alarmPeriod (if hourAM_PM_eqb p HOUR_AM then AM else PM)) ;;
  assign (set_alarmMatch (Alarm_Match_of_uint8 match_)).

(** *** Start, stop and the alarm switch *)

(** [STM32RTC::begin(bool resetTime, Hour_Format format)]. *)
Definition begin (resetTime : bool) (format : Hour_Format) : M unit :=
  when resetTime (assign (set_timeSet false)) ;;
  assign (set_format format) ;;
  o <- this ;;
  reinit <- call_RTC_init
              (if Hour_Format_eqb format HOUR_12
               then HOUR_FORMAT_12 else HOUR_FORMAT_24)
              (match _clockSource o with
               | LSE_CLOCK => drv_LSE_CLOCK
               | HSE_CLOCK => drv_HSE_CLOCK
               | LSI_CLOCK => drv_LSI_CLOCK
               end)
              resetTime ;;
  if reinit then
    assign (set_timeSet false) ;;
    syncTime ;;
    syncDate ;;
    o <- this ;;
    assign (set_alarmDay (_day o)) ;;
    assign (set_alarmHours (_hours o)) ;;
    assign (set_alarmMinutes (_minutes o)) ;;
    assign (set_alarmSeconds (_seconds o)) ;;
    assign (set_alarmSubSeconds (_subSeconds o)) ;;
    assign (set_alarmPeriod (_hoursPeriod o))
  else
    assign (set_timeSet true).

(** [STM32RTC::begin(Hour_Format format)]. *)
Definition begin_format (format : Hour_Format) : M unit :=
  begin false format.

(** [STM32RTC::end]. *)
Definition end_ : M unit :=
  call_RTC_DeInit ;;
  assign (set_timeSet false).

(** [STM32RTC::enableAlarm].  The [default] branch of its [switch] is for
    values that are no enumerator; [Alarm_Match] has none. *)
Definition enableAlarm (match_ : Alarm_Match) : M unit :=
  assign (set_alarmMatch match_) ;;
  match match_ with
  | MATCH_OFF => call_RTC_StopAlarm
  | MATCH_YYMMDDHHMMSS
  | MATCH_MMDDHHMMSS
  | MATCH_DHHMMSS
  | MATCH_HHMMSS
  | MATCH_MMSS
  | MATCH_SS =>
      o <- this ;;
      call_RTC_StartAlarm (_alarmDay o) (_alarmHours o) (_alarmMinutes o)
        (_alarmSeconds o) (_alarmSubSeconds o)
        (if AM_PM_eqb (_alarmPeriod o) AM then HOUR_AM else HOUR_PM)
        (u8 (Alarm_Match_value hdr (_alarmMatch o)))
  end.

(** [STM32RTC::disableAlarm]. *)
Definition disableAlarm : M unit := call_RTC_StopAlarm.

(** *** Get functions

    A pointer argument that may be null is a component of the result. *)

Definition getSubSeconds : M Z :=
  syncTime ;; o <- this ;; ret (_subSeconds o).

Definition getSeconds : M Z :=
  syncTime ;; o <- this ;; ret (_seconds o).

Definition getMinutes : M Z :=
  syncTime ;; o <- this ;; ret (_minutes o).

(** [getHours(AM_PM *period)]: the hours and [*period]. *)
Definition getHours : M (Z * AM_PM) :=
  syncTime ;; o <- this ;; ret (_hours o, _hoursPeriod o).

(** [getTime]: [*hours], [*minutes], [*seconds], [*subSeconds], [*period]. *)
Definition getTime : M (Z * Z * Z * Z * AM_PM) :=
  syncTime ;;
  o <- this ;;
  ret (_hours o, _minutes o, _seconds o, _subSeconds o, _hoursPeriod o).

Definition getWeekDay : M Z :=
  syncDate ;; o <- this ;; ret (_wday o).

Definition getDay : M Z :=
  syncDate ;; o <- this ;; ret (_day o).

Definition getMonth : M Z :=
  syncDate ;; o <- this ;; ret (_month o).

Definition getYear : M Z :=
  syncDate ;; o <- this ;; ret (_year o).

(** [getDate]: [*weekDay], [*day], [*month], [*year]. *)
Definition getDate : M (Z * Z * Z * Z) :=
  syncDate ;;
  o <- this ;;
  ret (_wday o, _day o, _month o, _year o).

Definition getAlarmSubSeconds : M Z :=
  syncAlarmTime ;; o <- this ;; ret (_alarmSubSeconds o).

Definition getAlarmSeconds : M Z :=
  syncAlarmTime ;; o <- this ;; ret (_alarmSeconds o).

Definition getAlarmMinutes : M Z :=
  syncAlarmTime ;; o <- this ;; ret (_alarmMinutes o).

Definition getAlarmHours : M (Z * AM_PM) :=
  syncAlarmTime ;; o <- this ;; ret (_alarmHours o, _alarmPeriod o).

Definition getAlarmDay : M Z :=
  syncAlarmTime ;; o <- this ;; ret (_alarmDay o).

Definition getAlarmMonth : M Z := ret 0.

Definition getAlarmYear : M Z := ret 0.

(** *** Set functions

    A [uint8_t] or [uint32_t] parameter holds the argument converted to
    its type. *)

Definition setSubSeconds (subSeconds : Z) : M unit :=
  let subSeconds := u32 subSeconds in
  syncTime ;;
  when (subSeconds <? 1000) (assign (set_subSeconds subSeconds)) ;;
  o <- this ;;
  call_RTC_SetTime (_hours o) (_minutes o) (_seconds o) (_subSeconds o)
    (if AM_PM_eqb (_hoursPeriod o) AM then HOUR_AM else HOUR_PM) ;;
  assign (set_timeSet true).

Definition setSeconds (seconds : Z) : M unit :=
  let seconds := u8 seconds in
  syncTime ;;
  when (seconds <? 60) (assign (set_seconds seconds)) ;;
  o <- this ;;
  call_RTC_SetTime (_hours o) (_minutes o) (_seconds o) (_subSeconds o)
    (if AM_PM_eqb (_hoursPeriod o) AM then HOUR_AM else HOUR_PM) ;;
  assign (set_timeSet true).

Definition setMinutes (minutes : Z) : M unit :=
  let minutes := u8 minutes in
  syncTime ;;
  when (minutes <? 60) (assign (set_minutes minutes)) ;;
  o <- this ;;
  call_RTC_SetTime (_hours o) (_minutes o) (_seconds o) (_subSeconds o)
    (if AM_PM_eqb (_hoursPeriod o) AM then HOUR_AM else HOUR_PM) ;;
  assign (set_timeSet true).

Definition setHours (hours : Z) (period : AM_PM) : M unit :=
  let hours := u8 hours in
  syncTime ;;
  when (hours <? 24) (assign (set_hours hours)) ;;
  o <- this ;;
  when (Hour_Format_eqb (_format o) HOUR_12)
    (assign (set_hoursPeriod period)) ;;
  o <- this ;;
  call_RTC_SetTime (_hours o) (_minutes o) (_seconds o) (_subSeconds o)
    (if AM_PM_eqb (_hoursPeriod o) AM then HOUR_AM else HOUR_PM) ;;
  assign (set_timeSet true).

Definition setTime (hours minutes seconds subSeconds : Z) (period : AM_PM)
    : M unit :=
  let hours := u8 hours in
  let minutes := u8 minutes in
  let seconds := u8 seconds in
  let subSeconds := u32 subSeconds in
  syncTime ;;
  when (subSeconds <? 1000) (assign (set_subSeconds subSeconds)) ;;
  when (seconds <? 60) (assign (set_seconds seconds)) ;;
  when (minutes <? 60) (assign (set_minutes minutes)) ;;
  when (hours <? 24) (assign (set_hours hours)) ;;
  o <- this ;;
  when (Hour_Format_eqb (_format o) HOUR_12)
    (assign (set_hoursPeriod period)) ;;
  o <- this ;;
  call_RTC_SetTime (_hours o) (_minutes o) (_seconds o) (_subSeconds o)
    (if AM_PM_eqb (_hoursPeriod o) AM then HOUR_AM else HOUR_PM) ;;
  assign (set_timeSet true).

Definition setWeekDay (weekDay : Z) : M unit :=
  let weekDay := u8 weekDay in
  syncDate ;;
  when ((1 <=? weekDay) && (weekDay <=? 7)) (assign (set_wday weekDay)) ;;
  o <- this ;;
  call_RTC_SetDate (_year o) (_month o) (_day o) (_wday o) ;;
  assign (set_timeSet true).

Definition setDay (day : Z) : M unit :=
  let day := u8 day in
  syncDate ;;
  when ((1 <=? day) && (day <=? 31)) (assign (set_day day)) ;;
  o <- this ;;
  call_RTC_SetDate (_year o) (_month o) (_day o) (_wday o) ;;
  assign (set_timeSet true).

Definition setMonth (month : Z) : M unit :=
  let month := u8 month in
  syncDate ;;
  when ((1 <=? month) && (month <=? 12)) (assign (set_month month)) ;;
  o <- this ;;
  call_RTC_SetDate (_year o) (_month o) (_day o) (_wday o) ;;
  assign (set_timeSet true).

Definition setYear (year : Z) : M unit :=
  let year := u8 year in
  syncDate ;;
  when (year <? 100) (assign (set_year year)) ;;
  o <- this ;;
  call_RTC_SetDate (_year o) (_month o) (_day o) (_wday o) ;;
  assign (set_timeSet true).

(** [setDate(uint8_t day, uint8_t month, uint8_t year)]. *)
Definition setDate (day month year : Z) : M unit :=
  let day := u8 day in
  let month := u8 month in
  let year := u8 year in
  syncDate ;;
  when ((1 <=? day) && (day <=? 31)) (assign (set_day day)) ;;
  when ((1 <=? month) && (month <=? 12)) (assign (set_month month)) ;;
  when (year <? 100) (assign (set_year year)) ;;
  o <- this ;;
  call_RTC_SetDate (_year o) (_month o) (_day o) (_wday o) ;;
  assign (set_timeSet true).

(** [setDate(uint8_t weekDay, uint8_t day, uint8_t month, uint8_t year)]. *)
Definition setDate_weekDay (weekDay day month year : Z) : M unit :=
  let weekDay := u8 weekDay in
  let day := u8 day in
  let month := u8 month in
  let year := u8 year in
  syncDate ;;
  when ((1 <=? weekDay) && (weekDay <=? 7)) (assign (set_wday weekDay)) ;;
  when ((1 <=? day) && (day <=? 31)) (assign (set_day day)) ;;
  when ((1 <=? month) && (month <=? 12)) (assign (set_month month)) ;;
  when (year <? 100) (assign (set_year year)) ;;
  o <- this ;;
  call_RTC_SetDate (_year o) (_month o) (_day o) (_wday o) ;;
  assign (set_timeSet true).

Definition setAlarmSubSeconds (subSeconds : Z) : M unit :=
  let subSeconds := u32 subSeconds in
  when (subSeconds <? 1000) (assign (set_alarmSubSeconds subSeconds)).

Definition setAlarmSeconds (seconds : Z) : M unit :=
  let seconds := u8 seconds in
  when (seconds <? 60) (assign (set_alarmSeconds seconds)).

Definition setAlarmMinutes (minutes : Z) : M unit :=
  let minutes := u8 minutes in
  when (minutes <? 60) (assign (set_alarmMinutes minutes)).

Definition setAlarmHours (hours : Z) (period : AM_PM) : M unit :=
  let hours := u8 hours in
  when (hours <? 24) (assign (set_alarmHours hours)) ;;
  o <- this ;;
  when (Hour_Format_eqb (_format o) HOUR_12)
    (assign (set_alarmPeriod period)).

Definition setAlarmTime (hours minutes seconds subSeconds : Z)
    (period : AM_PM) : M unit :=
  setAlarmHours hours period ;;
  setAlarmMinutes minutes ;;
  setAlarmSeconds seconds ;;
  setAlarmSubSeconds subSeconds.

Definition setAlarmDay (day : Z) : M unit :=
  let day := u8 day in
  when ((1 <=? day) && (day <=? 31)) (assign (set_alarmDay day)).

(** [UNUSED(month)]. *)
Definition setAlarmMonth (month : Z) : M unit := ret tt.

(** [UNUSED(year)]. *)
Definition setAlarmYear (year : Z) : M unit := ret tt.

Definition setAlarmDate (day month year : Z) : M unit :=
  setAlarmDay day.

(** *** Epoch functions *)

(** [getEpoch(uint32_t *subSeconds)]: the epoch and [*subSeconds].  The
    fields of [struct tm] are [int]s, the result of [mktime] is converted
    to [uint32_t]. *)
Definition getEpoch : M (Z * Z) :=
  syncDate ;;
  syncTime ;;
  o <- this ;;
  let tm := {| tm_isdst := -1;
               tm_yday := 0;
               tm_wday := 0;
               tm_year := _year o + EPOCH_TIME_YEAR_OFF;
               tm_mon := _month o - 1;
               tm_mday := _day o;
               tm_hour := _hours o;
               tm_min := _minutes o;
               tm_sec := _seconds o |} in
  ret (u32 (mktime tm), _subSeconds o).

Definition getY2kEpoch : M Z :=
  e <- getEpoch ;;
  ret (u32 (fst e - EPOCH_TIME_OFF)).

Definition setAlarmEpoch (ts : Z) (match_ : Alarm_Match) (subSeconds : Z)
    : M unit :=
  let ts := u32 ts in
  let ts := if ts <? EPOCH_TIME_OFF then EPOCH_TIME_OFF else ts in
  let t := ts in
  let tmp := gmtime t in
  setAlarmDay (tm_mday tmp) ;;
  setAlarmHours (tm_hour tmp) (setAlarmHours_default_period hdr) ;;
  setAlarmMinutes (tm_min tmp) ;;
  setAlarmSeconds (tm_sec tmp) ;;
  setAlarmSubSeconds subSeconds ;;
  enableAlarm match_.

Definition setEpoch (ts subSeconds : Z) : M unit :=
  let ts := u32 ts in
  let subSeconds := u32 subSeconds in
  let ts := if ts <? EPOCH_TIME_OFF then EPOCH_TIME_OFF else ts in
  let t := ts in
  let tmp := gmtime t in
  assign (set_year (u8 (tm_year tmp - EPOCH_TIME_YEAR_OFF))) ;;
  assign (set_month (u8 (tm_mon tmp + 1))) ;;
  assign (set_day (u8 (tm_mday tmp))) ;;
  (if tm_wday tmp =? 0
   then assign (set_wday (u8 (RTC_WEEKDAY_SUNDAY hal)))
   else assign (set_wday (u8 (tm_wday tmp)))) ;;
  assign (set_hours (u8 (tm_hour tmp))) ;;
  assign (set_minutes (u8 (tm_min tmp))) ;;
  assign (set_seconds (u8 (tm_sec tmp))) ;;
  assign (set_subSeconds subSeconds) ;;
  o <- this ;;
  call_RTC_SetDate (_year o) (_month o) (_day o) (_wday o) ;;
  call_RTC_SetTime (_hours o) (_minutes o) (_seconds o) (_subSeconds o)
    (if AM_PM_eqb (_hoursPeriod o) AM then HOUR_AM else HOUR_PM) ;;
  assign (set_timeSet true).

Definition setY2kEpoch (ts : Z) : M unit :=
  let ts := u32 ts in
  setEpoch (u32 (ts + EPOCH_TIME_OFF)) (setEpoch_default_subSeconds hdr).

End Wrapper.

(** ** An idealised RTC

    A register file that returns what was last written and does not tick;
    it runs the wrapper on concrete inputs.  The theorems below hold for
    every driver. *)
Module Sim.

Record Regs : Type := mk_Regs {
  r_time : hal_time;
  r_date : hal_date;
  r_alarm : hal_alarm;
  r_mask : Z;
  r_running : bool
}.

Definition hal : HAL Regs :=
  {| RTC_init := fun _ _ reset r =>
       (reset || negb (r_running r),
        mk_Regs (r_time r) (r_date r) (r_alarm r) (r_mask r) true);
     RTC_DeInit := fun r =>
       mk_Regs (r_time r) (r_date r) (r_alarm r) (r_mask r) false;
     RTC_GetTime := fun _ r => (r_time r, r);
     RTC_SetTime := fun h mi s ss p r =>
       mk_Regs (mk_hal_time h mi s ss p) (r_date r) (r_alarm r) (r_mask r)
         (r_running r);
     RTC_GetDate := fun _ r => (r_date r, r);
     RTC_SetDate := fun y mo d w r =>
       mk_Regs (r_time r) (mk_hal_date y mo d w) (r_alarm r) (r_mask r)
         (r_running r);
     RTC_StartAlarm := fun d h mi s ss p k r =>
       mk_Regs (r_time r) (r_date r) (mk_hal_alarm d h mi s ss p) k
         (r_running r);
     RTC_StopAlarm := fun r =>
       mk_Regs (r_time r) (r_date r) (r_alarm r) 0 (r_running r);
     RTC_GetAlarm := fun _ r => (r_alarm r, r_mask r, r);
     RTC_WEEKDAY_SUNDAY := 7 |}.

(** Enumerators as masks of the matched fields, no subseconds by default,
    [AM] by default. *)
Definition hdr : Header :=
  {| Alarm_Match_value := fun k =>
       match k with
       | MATCH_OFF => 0
       | MATCH_SS => 1
       | MATCH_MMSS => 3
       | MATCH_HHMMSS => 7
       | MATCH_DHHMMSS => 15
       | MATCH_MMDDHHMMSS => 31
       | MATCH_YYMMDDHHMMSS => 63
       end;
     setEpoch_default_subSeconds := 0;
     setAlarmHours_default_period := AM |}.

(** Saturday 15 June 2024, 10:20:05.250, alarm off. *)
Definition regs0 : Regs :=
  {| r_time := mk_hal_time 10 20 5 250 HOUR_AM;
     r_date := mk_hal_date 24 6 15 6;
     r_alarm := mk_hal_alarm 1 0 0 0 0 HOUR_AM;
     r_mask := 0;
     r_running := true |}.

Definition rtc0 : STM32RTC :=
  {| _format := HOUR_24; _hoursPeriod := AM;
     _hours := 0; _minutes := 0; _seconds := 0; _subSeconds := 0;
     _year := 0; _month := 1; _day := 1; _wday := 6;
     _alarmDay := 1; _alarmHours := 0; _alarmMinutes := 0;
     _alarmSeconds := 0; _alarmSubSeconds := 0; _alarmPeriod := AM;
     _alarmMatch := MATCH_OFF; _clockSource := LSI_CLOCK;
     _timeSet := true |}.

Definition m0 : Machine Regs := mk_Machine rtc0 regs0 [].

(** A clock that ignores writes and always reads 10:20:05.250 on 15 June
    2024. *)
Definition frozen : HAL unit :=
  {| RTC_init := fun _ _ reset u => (reset, u);
     RTC_DeInit := fun u => u;
     RTC_GetTime := fun _ u => (mk_hal_time 10 20 5 250 HOUR_AM, u);
     RTC_SetTime := fun _ _ _ _ _ u => u;
     RTC_GetDate := fun _ u => (mk_hal_date 24 6 15 6, u);
     RTC_SetDate := fun _ _ _ _ u => u;
     RTC_StartAlarm := fun _ _ _ _ _ _ _ u => u;
     RTC_StopAlarm := fun u => u;
     RTC_GetAlarm := fun a u => (a, 0, u);
     RTC_WEEKDAY_SUNDAY := 7 |}.

End Sim.

(** ** Vocabulary of the properties *)

(** The nearest value of [lo..hi] to [x]: a bound outside the range, [x]
    itself inside. *)
Definition nearest_bound (lo hi x : Z) : Z := Z.max lo (Z.min hi x).

(** The ranges of the cached clock and calendar fields. *)
Definition ranges_ok (o : STM32RTC) : Prop :=
  0 <= _seconds o <= 59 /\
  0 <= _minutes o <= 59 /\
  0 <= _hours o <= 23 /\
  0 <= _subSeconds o <= 999 /\
  1 <= _day o <= 31 /\
  1 <= _month o <= 12 /\
  0 <= _year o <= 99.

(** A driver whose [RTC_GetTime] and [RTC_GetDate] return values in these
    ranges. *)
Definition driver_in_range {HW : Type} (hal : HAL HW) : Prop :=
  (forall t h,
     0 <= ht_seconds (fst (RTC_GetTime hal t h)) <= 59 /\
     0 <= ht_minutes (fst (RTC_GetTime hal t h)) <= 59 /\
     0 <= ht_hours (fst (RTC_GetTime hal t h)) <= 23 /\
     0 <= ht_subSeconds (fst (RTC_GetTime hal t h)) <= 999) /\
  (forall d h,
     1 <= hd_day (fst (RTC_GetDate hal d h)) <= 31 /\
     1 <= hd_month (fst (RTC_GetDate hal d h)) <= 12 /\
     0 <= hd_year (fst (RTC_GetDate hal d h)) <= 99).

(** Between [m] and [m'] the driver was asked to write, respectively to
    read, the clock, the calendar or the alarm. *)
Definition HAL_set_called {HW : Type} (m m' : Machine HW) : Prop :=
  exists c, In c (new_calls m m') /\ is_HAL_set c = true.

Definition HAL_get_called {HW : Type} (m m' : Machine HW) : Prop :=
  exists c, In c (new_calls m m') /\ is_HAL_get c = true.

(** No driver call between [m] and [m']. *)
Definition no_driver_call {HW : Type} (m m' : Machine HW) : Prop :=
  hw m' = hw m /\ calls m' = calls m.

(** What the driver answers in [m] to the reads of [syncTime], [syncDate]
    and [syncAlarmTime]. *)
Definition read_time {HW : Type} (hal : HAL HW) (m : Machine HW) : hal_time :=
  fst (RTC_GetTime hal
         (mk_hal_time (_hours (rtc m)) (_minutes (rtc m)) (_seconds (rtc m))
            (_subSeconds (rtc m)) HOUR_AM) (hw m)).

Definition read_date {HW : Type} (hal : HAL HW) (m : Machine HW) : hal_date :=
  fst (RTC_GetDate hal
         (mk_hal_date (_year (rtc m)) (_month (rtc m)) (_day (rtc m))
            (_wday (rtc m))) (hw m)).

Definition read_alarm {HW : Type} (hal : HAL HW) (m : Machine HW)
    : hal_alarm * Z :=
  fst (RTC_GetAlarm hal
         (mk_hal_alarm (_alarmDay (rtc m)) (_alarmHours (rtc m))
            (_alarmMinutes (rtc m)) (_alarmSeconds (rtc m))
            (_alarmSubSeconds (rtc m)) HOUR_AM) (hw m)).

(** [m'] comes from [m] by a read of the clock followed by [RTC_SetTime]
    with the cached time of [m']. *)
Definition wrote_time {HW : Type} (hal : HAL HW) (m m' : Machine HW) : Prop :=
  let o := rtc m' in
  let p := if AM_PM_eqb (_hoursPeriod o) AM then HOUR_AM else HOUR_PM in
  hw m' =
    RTC_SetTime hal (_hours o) (_minutes o) (_seconds o) (_subSeconds o) p
      (hw (exec (syncTime hal) m)) /\
  calls m' =
    calls m ++
    [Call_RTC_GetTime;
     Call_RTC_SetTime (_hours o) (_minutes o) (_seconds o) (_subSeconds o) p].

(** [m'] comes from [m] by a read of the calendar followed by [RTC_SetDate]
    with the cached date of [m']. *)
Definition wrote_date {HW : Type} (hal : HAL HW) (m m' : Machine HW) : Prop :=
  let o := rtc m' in
  hw m' =
    RTC_SetDate hal (_year o) (_month o) (_day o) (_wday o)
      (hw (exec (syncDate hal) m)) /\
  calls m' =
    calls m ++
    [Call_RTC_GetDate;
     Call_RTC_SetDate (_year o) (_month o) (_day o) (_wday o)].

(** [m'] comes from [m] by [RTC_SetDate] and [RTC_SetTime] with the cached
    date and time of [m'], without a read. *)
Definition wrote_date_time {HW : Type} (hal : HAL HW) (m m' : Machine HW)
    : Prop :=
  let o := rtc m' in
  let p := if AM_PM_eqb (_hoursPeriod o) AM then HOUR_AM else HOUR_PM in
  hw m' =
    RTC_SetTime hal (_hours o) (_minutes o) (_seconds o) (_subSeconds o) p
      (RTC_SetDate hal (_year o) (_month o) (_day o) (_wday o) (hw m)) /\
  calls m' =
    calls m ++
    [Call_RTC_SetDate (_year o) (_month o) (_day o) (_wday o);
     Call_RTC_SetTime (_hours o) (_minutes o) (_seconds o) (_subSeconds o) p].

(** A driver over hardware that holds the time and the date last written
    and returns them when read: the clock does not tick between a write and
    the next read, and no write is refused. *)
Definition holds_writes {HW : Type} (hal : HAL HW) : Prop :=
  exists (time_of : HW -> hal_time) (date_of : HW -> hal_date),
    (forall t h, fst (RTC_GetTime hal t h) = time_of h) /\
    (forall d h, fst (RTC_GetDate hal d h) = date_of h) /\
    (forall d h, time_of (snd (RTC_GetDate hal d h)) = time_of h) /\
    (forall y mo d w h,
       date_of (RTC_SetDate hal y mo d w h) = mk_hal_date y mo d w) /\
    (forall ho mi s ss p h,
       time_of (RTC_SetTime hal ho mi s ss p h) = mk_hal_time ho mi s ss p) /\
    (forall ho mi s ss p h,
       date_of (RTC_SetTime hal ho mi s ss p h) = date_of h).

(** A member function that leaves the cached fields in their ranges when it
    finds them there. *)
Definition keeps_ranges {HW A : Type} (c : M HW A) : Prop :=
  forall m, ranges_ok (rtc m) -> ranges_ok (rtc (exec c m)).

(** The Gregorian calendar, day by day: leap years, the lengths of the
    months, and the date after a date. *)
Definition is_leap (y : Z) : bool :=
  ((y mod 4 =? 0) && negb (y mod 100 =? 0)) || (y mod 400 =? 0).

Definition days_in_month (y m : Z) : Z :=
  if m =? 2 then (if is_leap y then 29 else 28)
  else if (m =? 4) || (m =? 6) || (m =? 9) || (m =? 11) then 30
  else 31.

Definition next_day (c : Z * Z * Z) : Z * Z * Z :=
  let '(y, m, d) := c in
  if d <? days_in_month y m then (y, m, d + 1)
  else if m <? 12 then (y, m + 1, 1)
  else (y + 1, 1, 1).

Definition civil_eqb (a b : Z * Z * Z) : bool :=
  let '(y, m, d) := a in
  let '(y', m', d') := b in
  (y =? y') && (m =? m') && (d =? d').

(** The civil date of day [z + 1] is the date after the civil date of day
    [z]. *)
Definition civil_step_ok (z : Z) : bool :=
  civil_eqb (civil_from_days (z + 1)) (next_day (civil_from_days z)).

(** [p] holds of the [n] integers from [z] on. *)
Fixpoint forall_from (n : nat) (z : Z) (p : Z -> bool) : bool :=
  match n with
  | O => true
  | S n' => p z && forall_from n' (z + 1) p
  end.

(** The civil date of day [z] is a date of the years 2000 to 2106 and
    [days_from_civil] maps it back to [z]. *)
Definition civil_day_ok (z : Z) : bool :=
  let '(y, m, d) := civil_from_days z in
  (2000 <=? y) && (y <=? 2106) && (1 <=? m) && (m <=? 12) &&
  (1 <=? d) && (d <=? 31) && (days_from_civil y m d =? z).

(** ** Vocabulary of the further properties *)

(** The arguments [begin] passes to [RTC_init], and what [RTC_init] answers
    in [m]. *)
Definition driver_format (format : Hour_Format) : hourFormat_t :=
  if Hour_Format_eqb format HOUR_12 then HOUR_FORMAT_12 else HOUR_FORMAT_24.

Definition driver_source (o : STM32RTC) : sourceClock_t :=
  match _clockSource o with
  | LSE_CLOCK => drv_LSE_CLOCK
  | HSE_CLOCK => drv_HSE_CLOCK
  | LSI_CLOCK => drv_LSI_CLOCK
  end.

Definition init_reinit {HW : Type} (hal : HAL HW) (resetTime : bool)
    (format : Hour_Format) (m : Machine HW) : bool :=
  fst (RTC_init hal (driver_format format) (driver_source (rtc m)) resetTime
         (hw m)).

(** The cached clock, calendar, alarm and set-up of [o'] are those of [o]. *)
Definition same_time (o o' : STM32RTC) : Prop :=
  _hours o' = _hours o /\ _minutes o' = _minutes o /\
  _seconds o' = _seconds o /\ _subSeconds o' = _subSeconds o /\
  _hoursPeriod o' = _hoursPeriod o.

Definition same_date (o o' : STM32RTC) : Prop :=
  _year o' = _year o /\ _month o' = _month o /\ _day o' = _day o /\
  _wday o' = _wday o.

Definition same_alarm (o o' : STM32RTC) : Prop :=
  _alarmDay o' = _alarmDay o /\ _alarmHours o' = _alarmHours o /\
  _alarmMinutes o' = _alarmMinutes o /\ _alarmSeconds o' = _alarmSeconds o /\
  _alarmSubSeconds o' = _alarmSubSeconds o /\
  _alarmPeriod o' = _alarmPeriod o /\ _alarmMatch o' = _alarmMatch o.

Definition same_setup (o o' : STM32RTC) : Prop :=
  _format o' = _format o /\ _clockSource o' = _clockSource o.

(** The period the wrapper passes to the driver for a cached period. *)
Definition driver_period (p : AM_PM) : hourAM_PM_t :=
  if AM_PM_eqb p AM then HOUR_AM else HOUR_PM.

(** The cached period for a period the driver returns. *)
Definition cached_period (p : hourAM_PM_t) : AM_PM :=
  if hourAM_PM_eqb p HOUR_AM then AM else PM.

(** The tests of the set functions. *)
Definition valid_subSeconds (x : Z) : bool := x <? 1000.
Definition valid_seconds (x : Z) : bool := x <? 60.
Definition valid_minutes (x : Z) : bool := x <? 60.
Definition valid_hours (x : Z) : bool := x <? 24.
Definition valid_weekDay (x : Z) : bool := (1 <=? x) && (x <=? 7).
Definition valid_day (x : Z) : bool := (1 <=? x) && (x <=? 31).
Definition valid_month (x : Z) : bool := (1 <=? x) && (x <=? 12).
Definition valid_year (x : Z) : bool := x <? 100.

(** The enumerators of [Alarm_Match] have pairwise distinct values that fit
    a [uint8_t], as the labels of a [switch] must. *)
Definition Alarm_Match_values_distinct (hdr : Header) : Prop :=
  (forall k, 0 <= Alarm_Match_value hdr k < 256) /\
  (forall k k',
     Alarm_Match_value hdr k = Alarm_Match_value hdr k' -> k = k').

(** A driver over hardware that holds the alarm last started and returns it
    when read. *)
Definition holds_alarm {HW : Type} (hal : HAL HW) : Prop :=
  exists alarm_of : HW -> hal_alarm * Z,
    (forall a h, fst (RTC_GetAlarm hal a h) = alarm_of h) /\
    (forall d ho mi s ss p v h,
       alarm_of (RTC_StartAlarm hal d ho mi s ss p v h) =
       (mk_hal_alarm d ho mi s ss p, v)).

(** The cached alarm fields hold values of their types. *)
Definition alarm_typed (o : STM32RTC) : Prop :=
  0 <= _alarmDay o < 256 /\ 0 <= _alarmHours o < 256 /\
  0 <= _alarmMinutes o < 256 /\ 0 <= _alarmSeconds o < 256 /\
  0 <= _alarmSubSeconds o < 4294967296.

(** The civil date of day [z] is of a year up to 2099. *)
Definition civil_before_2100 (z : Z) : bool :=
  let '(y, _, _) := civil_from_days z in y <=? 2099.

(** The [i]-th month from January 2000 on starts on a day from 1 January
    2000 to 1 December 2099. *)
Definition month_start_ok (i : Z) : bool :=
  let z := days_from_civil (2000 + i / 12) (i mod 12 + 1) 1 in
  (10957 <=? z) && (z <=? 47451).

(** A member function that changes, in the cache, at most the clock (the
    calendar, the alarm). *)
Definition time_only {HW A : Type} (c : M HW A) : Prop :=
  forall m,
    same_date (rtc m) (rtc (exec c m)) /\
    same_alarm (rtc m) (rtc (exec c m)) /\
    same_setup (rtc m) (rtc (exec c m)).

Definition date_only {HW A : Type} (c : M HW A) : Prop :=
  forall m,
    same_time (rtc m) (rtc (exec c m)) /\
    same_alarm (rtc m) (rtc (exec c m)) /\
    same_setup (rtc m) (rtc (exec c m)).

Definition alarm_only {HW A : Type} (c : M HW A) : Prop :=
  forall m,
    same_time (rtc m) (rtc (exec c m)) /\
    same_date (rtc m) (rtc (exec c m)) /\
    same_setup (rtc m) (rtc (exec c m)) /\
    _timeSet (rtc (exec c m)) = _timeSet (rtc m).

(** * Properties *)

(** ** Unfolding a member function *)

(** Runs the member functions of a goal symbolically, up to the tests they
    make on values that are not known. *)
Ltac run :=
  cbv beta iota zeta delta
    [getSubSeconds getSeconds getMinutes getHours getTime getWeekDay getDay
     getMonth getYear getDate getAlarmSubSeconds getAlarmSeconds
     getAlarmMinutes getAlarmHours getAlarmDay getAlarmMonth getAlarmYear
     setSubSeconds setSeconds setMinutes setHours setTime setWeekDay setDay
     setMonth setYear setDate setDate_weekDay setAlarmDate setAlarmTime
     setAlarmSubSeconds setAlarmSeconds setAlarmMinutes setAlarmHours
     setAlarmDay setAlarmMonth setAlarmYear getY2kEpoch getEpoch setY2kEpoch
     setAlarmEpoch setEpoch enableAlarm disableAlarm begin_format begin end_
     syncTime syncDate syncAlarmTime
     eval exec bind ret when assign this call_RTC_init call_RTC_DeInit
     call_RTC_GetTime call_RTC_SetTime call_RTC_GetDate call_RTC_SetDate
     call_RTC_StartAlarm call_RTC_StopAlarm call_RTC_GetAlarm
     read_time read_date read_alarm
     fst snd rtc hw calls
     _format _hoursPeriod _hours _minutes _seconds _subSeconds _year _month
     _day _wday _alarmDay _alarmHours _alarmMinutes _alarmSeconds
     _alarmSubSeconds _alarmPeriod _alarmMatch _clockSource _timeSet
     set_format set_hoursPeriod set_hours set_minutes set_seconds
     set_subSeconds set_year set_month set_day set_wday set_alarmDay
     set_alarmHours set_alarmMinutes set_alarmSeconds set_alarmSubSeconds
     set_alarmPeriod set_alarmMatch set_clockSource set_timeSet].

(** Decides the tests of a goal, innermost first, and runs on. *)
Ltac split_tests :=
  repeat (match goal with
          | |- context [if ?b then _ else _] =>
              lazymatch b with
              | context [if _ then _ else _] => fail
              | _ => destruct b eqn:?
              end
          end; run).

Lemma u8_range (x : Z) : 0 <= u8 x < 256.
Proof. unfold u8. apply Z.mod_pos_bound. lia. Qed.

Lemma u32_range (x : Z) : 0 <= u32 x < 4294967296.
Proof. unfold u32. apply Z.mod_pos_bound. lia. Qed.

Lemma u8_small (x : Z) : 0 <= x < 256 -> u8 x = x.
Proof. intros H. unfold u8. apply Z.mod_small. exact H. Qed.

Lemma u32_small (x : Z) : 0 <= x < 4294967296 -> u32 x = x.
Proof. intros H. unfold u32. apply Z.mod_small. exact H. Qed.

Lemma u8_idem (x : Z) : u8 (u8 x) = u8 x.
Proof. apply u8_small, u8_range. Qed.

Lemma u32_idem (x : Z) : u32 (u32 x) = u32 x.
Proof. apply u32_small, u32_range. Qed.

Lemma new_calls_app {HW : Type} (m m' : Machine HW) (l : list HalCall) :
  calls m' = calls m ++ l -> new_calls m m' = l.
Proof.
  intros E. unfold new_calls. rewrite E.
  rewrite skipn_app, skipn_all, Nat.sub_diag. reflexivity.
Qed.

Section Properties.

Context {HW : Type}.
Variable hal : HAL HW.
Variable hdr : Header.

(** ** The alarm has no month and no year *)

(** C9: [getAlarmMonth] and [getAlarmYear] return 0 and leave the machine
    (object, hardware, driver calls) as it is; [setAlarmMonth] and
    [setAlarmYear] leave the machine as it is for every argument; and
    [setAlarmDate day month year] does what [setAlarmDay day] does, whatever
    [month] and [year] are. *)
Theorem alarm_month_year_ignored (m : Machine HW) (day month year : Z) :
  getAlarmMonth m = (0, m) /\
  getAlarmYear m = (0, m) /\
  exec (setAlarmMonth month) m = m /\
  exec (setAlarmYear year) m = m /\
  setAlarmDate day month year m = setAlarmDay day m.
Proof. repeat split. Qed.

(** ** The alarm switch *)

Lemma enableAlarm_StartAlarm (k : Alarm_Match) (m : Machine HW) :
  k <> MATCH_OFF ->
  let o := rtc m in
  let p := if AM_PM_eqb (_alarmPeriod o) AM then HOUR_AM else HOUR_PM in
  let v := u8 (Alarm_Match_value hdr k) in
  exec (enableAlarm hal hdr k) m =
  mk_Machine (set_alarmMatch k o)
    (RTC_StartAlarm hal (_alarmDay o) (_alarmHours o) (_alarmMinutes o)
       (_alarmSeconds o) (_alarmSubSeconds o) p v (hw m))
    (calls m ++
     [Call_RTC_StartAlarm (_alarmDay o) (_alarmHours o) (_alarmMinutes o)
        (_alarmSeconds o) (_alarmSubSeconds o) p v]).
Proof. intros Hk. destruct k; [congruence | reflexivity ..]. Qed.

Lemma enableAlarm_StopAlarm (m : Machine HW) :
  exec (enableAlarm hal hdr MATCH_OFF) m =
  mk_Machine (set_alarmMatch MATCH_OFF (rtc m)) (RTC_StopAlarm hal (hw m))
    (calls m ++ [Call_RTC_StopAlarm]).
Proof. reflexivity. Qed.

(** C8: [enableAlarm match] sets the cached alarm match to [match] and
    nothing else in the object; for [MATCH_OFF] it calls [RTC_StopAlarm],
    for each of the six other enumerators it calls [RTC_StartAlarm] with
    the cached alarm day, hours, minutes, seconds, subseconds and period
    and with the value of [match]. *)
Theorem enableAlarm_policy (k : Alarm_Match) (m : Machine HW) :
  let m' := exec (enableAlarm hal hdr k) m in
  let o := rtc m in
  let p := if AM_PM_eqb (_alarmPeriod o) AM then HOUR_AM else HOUR_PM in
  let v := u8 (Alarm_Match_value hdr k) in
  rtc m' = set_alarmMatch k o /\
  _alarmMatch (rtc m') = k /\
  match k with
  | MATCH_OFF =>
      hw m' = RTC_StopAlarm hal (hw m) /\
      calls m' = calls m ++ [Call_RTC_StopAlarm]
  | MATCH_SS | MATCH_MMSS | MATCH_HHMMSS | MATCH_DHHMMSS
  | MATCH_MMDDHHMMSS | MATCH_YYMMDDHHMMSS =>
      hw m' =
      RTC_StartAlarm hal (_alarmDay o) (_alarmHours o) (_alarmMinutes o)
        (_alarmSeconds o) (_alarmSubSeconds o) p v (hw m) /\
      calls m' =
      calls m ++
      [Call_RTC_StartAlarm (_alarmDay o) (_alarmHours o) (_alarmMinutes o)
         (_alarmSeconds o) (_alarmSubSeconds o) p v]
  end.
Proof.
  destruct k; cbv zeta;
    first [ rewrite enableAlarm_StopAlarm
          | rewrite enableAlarm_StartAlarm by discriminate ];
    cbn [rtc hw calls set_alarmMatch _alarmMatch]; repeat split.
Qed.

(** ** Epochs *)

(** C5: [getY2kEpoch] returns what [getEpoch] returns minus 946684800, in
    [uint32_t] arithmetic, and leaves the machine as [getEpoch] does;
    [setY2kEpoch ts] is [setEpoch] of [ts + 946684800] modulo 2^32, with
    the default subseconds. *)
Theorem y2k_epoch_is_shifted_epoch (ts : Z) (m : Machine HW) :
  EPOCH_TIME_OFF = 946684800 /\
  eval (getY2kEpoch hal) m =
    (fst (eval (getEpoch hal) m) - 946684800) mod 2 ^ 32 /\
  exec (getY2kEpoch hal) m = exec (getEpoch hal) m /\
  setY2kEpoch hal hdr ts m =
    setEpoch hal ((u32 ts + 946684800) mod 2 ^ 32)
      (setEpoch_default_subSeconds hdr) m.
Proof.
  change (2 ^ 32) with 4294967296.
  split; [reflexivity |]. split; [| split].
  - run. unfold EPOCH_TIME_OFF. unfold u32 at 1. reflexivity.
  - run. reflexivity.
  - unfold setY2kEpoch, EPOCH_TIME_OFF. unfold u32 at 1. reflexivity.
Qed.

Lemma floor_below (ts : Z) :
  0 <= ts < 946684800 ->
  (if u32 ts <? EPOCH_TIME_OFF then EPOCH_TIME_OFF else u32 ts) =
  (if u32 946684800 <? EPOCH_TIME_OFF then EPOCH_TIME_OFF
   else u32 946684800).
Proof.
  intros H. rewrite (u32_small ts) by lia.
  rewrite (u32_small 946684800) by lia.
  unfold EPOCH_TIME_OFF.
  destruct (Z.ltb_spec ts 946684800); [reflexivity | lia].
Qed.

(** C6: an epoch below 946684800 is replaced by 946684800: [setEpoch] and
    [setAlarmEpoch] return the same machine for it as for 946684800. *)
Theorem epoch_floored_at_2000 (ts ss : Z) (k : Alarm_Match)
    (m : Machine HW) :
  0 <= ts < 946684800 ->
  setEpoch hal ts ss m = setEpoch hal 946684800 ss m /\
  setAlarmEpoch hal hdr ts k ss m = setAlarmEpoch hal hdr 946684800 k ss m.
Proof.
  intros H. unfold setEpoch, setAlarmEpoch.
  rewrite (floor_below ts H). split; reflexivity.
Qed.

(** C10: [setEpoch] stores its [subSeconds] argument in [_subSeconds]
    whatever its value, 1000 and more included; [setSubSeconds] stores it
    only below 1000 and otherwise keeps the subseconds read from the
    hardware, [setAlarmSubSeconds] stores it only below 1000 and otherwise
    keeps the cached alarm subseconds. *)
Theorem setEpoch_stores_any_subSeconds (ts ss : Z) (m : Machine HW) :
  0 <= ss < 4294967296 ->
  _subSeconds (rtc (exec (setEpoch hal ts ss) m)) = ss /\
  _subSeconds (rtc (exec (setSubSeconds hal ss) m)) =
    (if ss <? 1000 then ss
     else _subSeconds (rtc (exec (syncTime hal) m))) /\
  _alarmSubSeconds (rtc (exec (setAlarmSubSeconds ss) m)) =
    (if ss <? 1000 then ss else _alarmSubSeconds (rtc m)).
Proof.
  intros H. repeat split.
  - run. rewrite (u32_small ss H).
    destruct (tm_wday _ =? 0); reflexivity.
  - run. rewrite (u32_small ss H). destruct (ss <? 1000); reflexivity.
  - run. rewrite (u32_small ss H). destruct (ss <? 1000); reflexivity.
Qed.

(** ** Set functions ignore what is out of range *)

Lemma in_range_is_stored (s mo : Z) (m : Machine HW) :
  0 <= s < 60 ->
  1 <= mo <= 12 ->
  _seconds (rtc (exec (setSeconds hal s) m)) = s /\
  _month (rtc (exec (setMonth hal mo) m)) = mo.
Proof.
  intros Hs Hmo.
  assert (Es : (u8 s <? 60) = true)
    by (rewrite u8_small by lia; apply Z.ltb_lt; lia).
  assert (Emo : (1 <=? u8 mo) && (u8 mo <=? 12) = true).
  { rewrite u8_small by lia. apply andb_true_iff.
    rewrite Z.leb_le, Z.leb_le. lia. }
  run. rewrite Es, Emo. run.
  rewrite (u8_small s), (u8_small mo) by lia. split; reflexivity.
Qed.

(** C1, as the code has it: a set function does not store an out-of-range
    argument and does not clamp it.  The field keeps the value read from the
    hardware at the start of the call (clock and calendar) or the cached
    value (alarm). *)
Theorem out_of_range_is_ignored
    (ss s mi h wd d mo y : Z) (p : AM_PM) (m : Machine HW) :
  1000 <= ss < 4294967296 ->
  60 <= s < 256 ->
  60 <= mi < 256 ->
  24 <= h < 256 ->
  wd = 0 \/ 7 < wd < 256 ->
  d = 0 \/ 31 < d < 256 ->
  mo = 0 \/ 12 < mo < 256 ->
  100 <= y < 256 ->
  let t := exec (syncTime hal) m in
  let c := exec (syncDate hal) m in
  _subSeconds (rtc (exec (setSubSeconds hal ss) m)) = _subSeconds (rtc t) /\
  _seconds (rtc (exec (setSeconds hal s) m)) = _seconds (rtc t) /\
  _minutes (rtc (exec (setMinutes hal mi) m)) = _minutes (rtc t) /\
  _hours (rtc (exec (setHours hal h p) m)) = _hours (rtc t) /\
  _wday (rtc (exec (setWeekDay hal wd) m)) = _wday (rtc c) /\
  _day (rtc (exec (setDay hal d) m)) = _day (rtc c) /\
  _month (rtc (exec (setMonth hal mo) m)) = _month (rtc c) /\
  _year (rtc (exec (setYear hal y) m)) = _year (rtc c) /\
  exec (setAlarmSubSeconds ss) m = m /\
  exec (setAlarmSeconds s) m = m /\
  exec (setAlarmMinutes mi) m = m /\
  _alarmHours (rtc (exec (setAlarmHours h p) m)) = _alarmHours (rtc m) /\
  exec (setAlarmDay d) m = m /\
  (let m' := exec (setTime hal h mi s ss p) m in
   _hours (rtc m') = _hours (rtc t) /\
   _minutes (rtc m') = _minutes (rtc t) /\
   _seconds (rtc m') = _seconds (rtc t) /\
   _subSeconds (rtc m') = _subSeconds (rtc t)) /\
  (let m' := exec (setDate hal d mo y) m in
   _day (rtc m') = _day (rtc c) /\
   _month (rtc m') = _month (rtc c) /\
   _year (rtc m') = _year (rtc c)) /\
  (let m' := exec (setDate_weekDay hal wd d mo y) m in
   _wday (rtc m') = _wday (rtc c) /\
   _day (rtc m') = _day (rtc c) /\
   _month (rtc m') = _month (rtc c) /\
   _year (rtc m') = _year (rtc c)) /\
  (let m' := exec (setAlarmTime h mi s ss p) m in
   _alarmHours (rtc m') = _alarmHours (rtc m) /\
   _alarmMinutes (rtc m') = _alarmMinutes (rtc m) /\
   _alarmSeconds (rtc m') = _alarmSeconds (rtc m) /\
   _alarmSubSeconds (rtc m') = _alarmSubSeconds (rtc m)) /\
  exec (setAlarmDate d mo y) m = m.
Proof.
  intros Hss Hs Hmi Hh Hwd Hd Hmo Hy.
  assert (Ess : (u32 ss <? 1000) = false)
    by (rewrite u32_small by lia; apply Z.ltb_ge; lia).
  assert (Es : (u8 s <? 60) = false)
    by (rewrite u8_small by lia; apply Z.ltb_ge; lia).
  assert (Emi : (u8 mi <? 60) = false)
    by (rewrite u8_small by lia; apply Z.ltb_ge; lia).
  assert (Eh : (u8 h <? 24) = false)
    by (rewrite u8_small by lia; apply Z.ltb_ge; lia).
  assert (Ey : (u8 y <? 100) = false)
    by (rewrite u8_small by lia; apply Z.ltb_ge; lia).
  assert (Ewd : (1 <=? u8 wd) && (u8 wd <=? 7) = false).
  { rewrite u8_small by lia. apply andb_false_iff.
    rewrite Z.leb_gt, Z.leb_gt. lia. }
  assert (Ed : (1 <=? u8 d) && (u8 d <=? 31) = false).
  { rewrite u8_small by lia. apply andb_false_iff.
    rewrite Z.leb_gt, Z.leb_gt. lia. }
  assert (Emo : (1 <=? u8 mo) && (u8 mo <=? 12) = false).
  { rewrite u8_small by lia. apply andb_false_iff.
    rewrite Z.leb_gt, Z.leb_gt. lia. }
  cbv zeta. run.
  rewrite Ess, Es, Emi, Eh, Ey, Ewd, Ed, Emo. run.
  repeat split; try (destruct m; reflexivity).
  all: split_tests; reflexivity.
Qed.

(** ** Writing through to the hardware *)

Lemma wrote_time_set_called (m m' : Machine HW) :
  wrote_time hal m m' -> HAL_set_called m m'.
Proof.
  intros [_ E]. unfold HAL_set_called.
  rewrite (new_calls_app _ _ _ E).
  eexists. split; [right; left; reflexivity | reflexivity].
Qed.

Lemma wrote_date_set_called (m m' : Machine HW) :
  wrote_date hal m m' -> HAL_set_called m m'.
Proof.
  intros [_ E]. unfold HAL_set_called.
  rewrite (new_calls_app _ _ _ E).
  eexists. split; [right; left; reflexivity | reflexivity].
Qed.

Lemma no_driver_call_not_set (m m' : Machine HW) :
  no_driver_call m m' -> ~ HAL_set_called m m'.
Proof.
  intros [_ E] [c [Hin _]]. unfold new_calls in Hin.
  rewrite E, skipn_all in Hin. exact Hin.
Qed.

Ltac wrote :=
  unfold wrote_time, wrote_date, wrote_date_time; run; split_tests;
  rewrite <- ?app_assoc; split; reflexivity.

Lemma setSubSeconds_wrote (ss : Z) (m : Machine HW) :
  wrote_time hal m (exec (setSubSeconds hal ss) m).
Proof. wrote. Qed.

Lemma setSeconds_wrote (s : Z) (m : Machine HW) :
  wrote_time hal m (exec (setSeconds hal s) m).
Proof. wrote. Qed.

Lemma setMinutes_wrote (mi : Z) (m : Machine HW) :
  wrote_time hal m (exec (setMinutes hal mi) m).
Proof. wrote. Qed.

Lemma setHours_wrote (h : Z) (p : AM_PM) (m : Machine HW) :
  wrote_time hal m (exec (setHours hal h p) m).
Proof. wrote. Qed.

Lemma setTime_wrote (h mi s ss : Z) (p : AM_PM) (m : Machine HW) :
  wrote_time hal m (exec (setTime hal h mi s ss p) m).
Proof. wrote. Qed.

Lemma setWeekDay_wrote (wd : Z) (m : Machine HW) :
  wrote_date hal m (exec (setWeekDay hal wd) m).
Proof. wrote. Qed.

Lemma setDay_wrote (d : Z) (m : Machine HW) :
  wrote_date hal m (exec (setDay hal d) m).
Proof. wrote. Qed.

Lemma setMonth_wrote (mo : Z) (m : Machine HW) :
  wrote_date hal m (exec (setMonth hal mo) m).
Proof. wrote. Qed.

Lemma setYear_wrote (y : Z) (m : Machine HW) :
  wrote_date hal m (exec (setYear hal y) m).
Proof. wrote. Qed.

Lemma setDate_wrote (d mo y : Z) (m : Machine HW) :
  wrote_date hal m (exec (setDate hal d mo y) m).
Proof. wrote. Qed.

Lemma setDate_weekDay_wrote (wd d mo y : Z) (m : Machine HW) :
  wrote_date hal m (exec (setDate_weekDay hal wd d mo y) m).
Proof. wrote. Qed.

Lemma setEpoch_wrote (ts ss : Z) (m : Machine HW) :
  wrote_date_time hal m (exec (setEpoch hal ts ss) m).
Proof. wrote. Qed.

Ltac cached_only :=
  unfold no_driver_call; run; split_tests; split; reflexivity.

Lemma setAlarmSubSeconds_cached (ss : Z) (m : Machine HW) :
  no_driver_call m (exec (setAlarmSubSeconds ss) m).
Proof. cached_only. Qed.

Lemma setAlarmSeconds_cached (s : Z) (m : Machine HW) :
  no_driver_call m (exec (setAlarmSeconds s) m).
Proof. cached_only. Qed.

Lemma setAlarmMinutes_cached (mi : Z) (m : Machine HW) :
  no_driver_call m (exec (setAlarmMinutes mi) m).
Proof. cached_only. Qed.

Lemma setAlarmHours_cached (h : Z) (p : AM_PM) (m : Machine HW) :
  no_driver_call m (exec (setAlarmHours h p) m).
Proof. cached_only. Qed.

Lemma setAlarmDay_cached (d : Z) (m : Machine HW) :
  no_driver_call m (exec (setAlarmDay d) m).
Proof. cached_only. Qed.

Lemma setAlarmTime_cached (h mi s ss : Z) (p : AM_PM) (m : Machine HW) :
  no_driver_call m (exec (setAlarmTime h mi s ss p) m).
Proof. cached_only. Qed.

(** C2, as the code has it: every clock and calendar set function reads the
    hardware, updates the cache and writes the cached time ([RTC_SetTime]) or
    date ([RTC_SetDate]) to the hardware before it returns, and [setEpoch]
    writes both; the alarm set functions only update the cache, with no
    driver call; the cached alarm reaches the hardware in [enableAlarm],
    which calls [RTC_StartAlarm] with it for every match but [MATCH_OFF]. *)
Theorem clock_setters_write_through_alarm_setters_cache
    (h mi s ss wd d mo y ts : Z) (p : AM_PM) (k : Alarm_Match)
    (m : Machine HW) :
  (wrote_time hal m (exec (setSubSeconds hal ss) m) /\
   wrote_time hal m (exec (setSeconds hal s) m) /\
   wrote_time hal m (exec (setMinutes hal mi) m) /\
   wrote_time hal m (exec (setHours hal h p) m) /\
   wrote_time hal m (exec (setTime hal h mi s ss p) m)) /\
  (wrote_date hal m (exec (setWeekDay hal wd) m) /\
   wrote_date hal m (exec (setDay hal d) m) /\
   wrote_date hal m (exec (setMonth hal mo) m) /\
   wrote_date hal m (exec (setYear hal y) m) /\
   wrote_date hal m (exec (setDate hal d mo y) m) /\
   wrote_date hal m (exec (setDate_weekDay hal wd d mo y) m)) /\
  wrote_date_time hal m (exec (setEpoch hal ts ss) m) /\
  (no_driver_call m (exec (setAlarmSubSeconds ss) m) /\
   no_driver_call m (exec (setAlarmSeconds s) m) /\
   no_driver_call m (exec (setAlarmMinutes mi) m) /\
   no_driver_call m (exec (setAlarmHours h p) m) /\
   no_driver_call m (exec (setAlarmDay d) m) /\
   no_driver_call m (exec (setAlarmTime h mi s ss p) m) /\
   no_driver_call m (exec (setAlarmDate d mo y) m)) /\
  new_calls m (exec (enableAlarm hal hdr k) m) =
    match k with
    | MATCH_OFF => [Call_RTC_StopAlarm]
    | _ =>
        [Call_RTC_StartAlarm (_alarmDay (rtc m)) (_alarmHours (rtc m))
           (_alarmMinutes (rtc m)) (_alarmSeconds (rtc m))
           (_alarmSubSeconds (rtc m))
           (if AM_PM_eqb (_alarmPeriod (rtc m)) AM then HOUR_AM else HOUR_PM)
           (u8 (Alarm_Match_value hdr k))]
    end.
Proof.
  repeat match goal with |- _ /\ _ => split end.
  - apply setSubSeconds_wrote.
  - apply setSeconds_wrote.
  - apply setMinutes_wrote.
  - apply setHours_wrote.
  - apply setTime_wrote.
  - apply setWeekDay_wrote.
  - apply setDay_wrote.
  - apply setMonth_wrote.
  - apply setYear_wrote.
  - apply setDate_wrote.
  - apply setDate_weekDay_wrote.
  - apply setEpoch_wrote.
  - apply setAlarmSubSeconds_cached.
  - apply setAlarmSeconds_cached.
  - apply setAlarmMinutes_cached.
  - apply setAlarmHours_cached.
  - apply setAlarmDay_cached.
  - apply setAlarmTime_cached.
  - apply setAlarmDay_cached.
  - apply new_calls_app. destruct k; reflexivity.
Qed.

(** ** Reading from the hardware *)

Lemma syncTime_exec (m : Machine HW) :
  let t := read_time hal m in
  rtc (exec (syncTime hal) m) =
    set_hoursPeriod (if hourAM_PM_eqb (ht_period t) HOUR_AM then AM else PM)
      (set_subSeconds (u32 (ht_subSeconds t))
         (set_seconds (u8 (ht_seconds t))
            (set_minutes (u8 (ht_minutes t))
               (set_hours (u8 (ht_hours t)) (rtc m))))) /\
  calls (exec (syncTime hal) m) = calls m ++ [Call_RTC_GetTime].
Proof. split; reflexivity. Qed.

Lemma syncDate_exec (m : Machine HW) :
  let d := read_date hal m in
  rtc (exec (syncDate hal) m) =
    set_wday (u8 (hd_wday d))
      (set_day (u8 (hd_day d))
         (set_month (u8 (hd_month d))
            (set_year (u8 (hd_year d)) (rtc m)))) /\
  calls (exec (syncDate hal) m) = calls m ++ [Call_RTC_GetDate].
Proof. split; reflexivity. Qed.

(** C3, as the code has it: every get function but [getAlarmMonth] and
    [getAlarmYear] first synchronises the cache from the hardware (one call
    of [RTC_GetTime], [RTC_GetDate] or [RTC_GetAlarm]) and returns what the
    driver has just answered; [getAlarmMonth] and [getAlarmYear] return the
    constant 0 and do not touch the machine. *)
Theorem getters_sync_except_alarm_month_year (m : Machine HW) :
  let t := read_time hal m in
  let d := read_date hal m in
  let a := fst (read_alarm hal m) in
  let mt := exec (syncTime hal) m in
  let md := exec (syncDate hal) m in
  let ma := exec (syncAlarmTime hal hdr) m in
  let period (p : hourAM_PM_t) :=
    if hourAM_PM_eqb p HOUR_AM then AM else PM in
  (getSubSeconds hal m = (u32 (ht_subSeconds t), mt) /\
   getSeconds hal m = (u8 (ht_seconds t), mt) /\
   getMinutes hal m = (u8 (ht_minutes t), mt) /\
   getHours hal m = ((u8 (ht_hours t), period (ht_period t)), mt) /\
   getTime hal m =
     ((u8 (ht_hours t), u8 (ht_minutes t), u8 (ht_seconds t),
       u32 (ht_subSeconds t), period (ht_period t)), mt) /\
   calls mt = calls m ++ [Call_RTC_GetTime]) /\
  (getWeekDay hal m = (u8 (hd_wday d), md) /\
   getDay hal m = (u8 (hd_day d), md) /\
   getMonth hal m = (u8 (hd_month d), md) /\
   getYear hal m = (u8 (hd_year d), md) /\
   getDate hal m =
     ((u8 (hd_wday d), u8 (hd_day d), u8 (hd_month d), u8 (hd_year d)), md) /\
   calls md = calls m ++ [Call_RTC_GetDate]) /\
  (getAlarmSubSeconds hal hdr m = (u32 (ha_subSeconds a), ma) /\
   getAlarmSeconds hal hdr m = (u8 (ha_seconds a), ma) /\
   getAlarmMinutes hal hdr m = (u8 (ha_minutes a), ma) /\
   getAlarmHours hal hdr m = ((u8 (ha_hours a), period (ha_period a)), ma) /\
   getAlarmDay hal hdr m = (u8 (ha_day a), ma) /\
   calls ma = calls m ++ [Call_RTC_GetAlarm]) /\
  getAlarmMonth m = (0, m) /\
  getAlarmYear m = (0, m).
Proof. cbv zeta. repeat split. Qed.

(** ** The calendar between 2000 and 2106 *)

Lemma forall_from_spec (n : nat) :
  forall (z : Z) (p : Z -> bool),
    forall_from n z p = true ->
    forall x, z <= x < z + Z.of_nat n -> p x = true.
Proof.
  induction n as [| n IH]; intros z p H x Hx.
  - cbn in Hx. lia.
  - cbn [forall_from] in H. apply andb_true_iff in H as [Hz Hrest].
    destruct (Z.eq_dec x z) as [-> | Hne]; [exact Hz |].
    apply (IH (z + 1) p Hrest). lia.
Qed.

(** Every day from 1 January 2000 (day 10957) to 7 February 2106 (day
    49710, the day of the last [uint32_t] second), by enumeration. *)
Lemma civil_days_checked :
  forall_from (Z.to_nat 38754) 10957 civil_day_ok = true.
Proof. vm_compute. reflexivity. Qed.

Lemma civil_steps_checked :
  forall_from (Z.to_nat 38754) 10957 civil_step_ok = true.
Proof. vm_compute. reflexivity. Qed.

Lemma civil_eqb_eq (a b : Z * Z * Z) : civil_eqb a b = true -> a = b.
Proof.
  destruct a as [[y m] d], b as [[y' m'] d']. unfold civil_eqb. intros H.
  apply andb_true_iff in H as [H Hd]. apply andb_true_iff in H as [Hy Hm].
  apply Z.eqb_eq in Hy, Hm, Hd. congruence.
Qed.

(** [civil_from_days] is the Gregorian calendar from 1 January 2000 on: day
    10957 is that date, and each day up to 7 February 2106 is followed by
    the next date of the calendar. *)
Lemma civil_from_days_gregorian (z : Z) :
  10957 <= z <= 49710 ->
  civil_from_days 10957 = (2000, 1, 1) /\
  civil_from_days (z + 1) = next_day (civil_from_days z).
Proof.
  intros Hz. split; [reflexivity |].
  apply civil_eqb_eq.
  apply (forall_from_spec _ _ _ civil_steps_checked).
  rewrite Z2Nat.id by lia. lia.
Qed.

Lemma civil_round_trip (z : Z) :
  10957 <= z <= 49710 ->
  let '(y, mo, d) := civil_from_days z in
  2000 <= y <= 2106 /\ 1 <= mo <= 12 /\ 1 <= d <= 31 /\
  days_from_civil y mo d = z.
Proof.
  intros Hz.
  assert (H : civil_day_ok z = true).
  { apply (forall_from_spec _ _ _ civil_days_checked).
    rewrite Z2Nat.id by lia. lia. }
  unfold civil_day_ok in H.
  destruct (civil_from_days z) as [[y mo] d].
  repeat (apply andb_true_iff in H; destruct H as [H ?]).
  repeat match goal with
         | E : (_ <=? _) = true |- _ => apply Z.leb_le in E
         | E : (_ =? _) = true |- _ => apply Z.eqb_eq in E
         end.
  lia.
Qed.

Lemma day_of_epoch (ts : Z) :
  946684800 <= ts < 4294967296 -> 10957 <= ts / 86400 <= 49710.
Proof.
  intros H. split.
  - apply Z.div_le_lower_bound; lia.
  - apply Z.lt_succ_r. apply Z.div_lt_upper_bound; lia.
Qed.

Lemma second_of_day (r : Z) :
  0 <= r < 86400 ->
  0 <= r / 3600 <= 23 /\ 0 <= (r / 60) mod 60 <= 59 /\ 0 <= r mod 60 <= 59 /\
  r / 3600 * 3600 + (r / 60) mod 60 * 60 + r mod 60 = r.
Proof.
  intros H.
  pose proof (Z.div_mod r 60 ltac:(lia)) as E1.
  pose proof (Z.mod_pos_bound r 60 ltac:(lia)) as B1.
  pose proof (Z.div_mod (r / 60) 60 ltac:(lia)) as E2.
  pose proof (Z.mod_pos_bound (r / 60) 60 ltac:(lia)) as B2.
  assert (E3 : r / 3600 = r / 60 / 60)
    by (rewrite Z.div_div by lia; reflexivity).
  rewrite E3.
  assert (0 <= r / 60 / 60 <= 23).
  { split.
    - apply Z.div_pos; [apply Z.div_pos |]; lia.
    - apply Z.lt_succ_r. apply Z.div_lt_upper_bound; [lia |].
      apply Z.div_lt_upper_bound; lia. }
  lia.
Qed.

(** [gmtime] of a second of 2000 to 2106: the fields are in their ranges
    and [mktime] maps them back. *)
Lemma gmtime_fields (ts : Z) :
  946684800 <= ts < 4294967296 ->
  let b := gmtime ts in
  100 <= tm_year b <= 206 /\
  0 <= tm_mon b <= 11 /\
  1 <= tm_mday b <= 31 /\
  0 <= tm_hour b <= 23 /\
  0 <= tm_min b <= 59 /\
  0 <= tm_sec b <= 59 /\
  0 <= tm_wday b <= 6 /\
  days_from_civil (1900 + tm_year b) (tm_mon b + 1) (tm_mday b) = ts / 86400 /\
  tm_hour b * 3600 + tm_min b * 60 + tm_sec b = ts mod 86400.
Proof.
  intros H.
  pose proof (civil_round_trip (ts / 86400) (day_of_epoch ts H)) as C.
  pose proof (second_of_day (ts mod 86400)
                (Z.mod_pos_bound ts 86400 ltac:(lia))) as S.
  pose proof (Z.mod_pos_bound (ts / 86400 + 4) 7 ltac:(lia)) as W.
  unfold gmtime.
  destruct (civil_from_days (ts / 86400)) as [[y mo] d].
  cbn [tm_year tm_mon tm_mday tm_hour tm_min tm_sec tm_wday].
  replace (1900 + (y - 1900)) with y by lia.
  replace (mo - 1 + 1) with mo by lia.
  lia.
Qed.

Lemma mktime_gmtime (ts : Z) :
  946684800 <= ts < 4294967296 ->
  let b := gmtime ts in
  mktime {| tm_sec := tm_sec b; tm_min := tm_min b; tm_hour := tm_hour b;
            tm_mday := tm_mday b; tm_mon := tm_mon b; tm_year := tm_year b;
            tm_wday := 0; tm_yday := 0; tm_isdst := -1 |} = ts.
Proof.
  intros H. pose proof (gmtime_fields ts H) as F. cbv zeta in *.
  destruct F as (Hy & Hm & Hd & Hh & Hmi & Hs & Hw & Ed & Er).
  unfold mktime. cbn [tm_year tm_mon tm_mday tm_hour tm_min tm_sec].
  rewrite (Z.div_small (tm_mon (gmtime ts)) 12) by lia.
  rewrite (Z.mod_small (tm_mon (gmtime ts)) 12) by lia.
  rewrite Z.add_0_r, Ed.
  pose proof (Z.div_mod ts 86400 ltac:(lia)). lia.
Qed.

(** ** From an epoch to the calendar and back *)

Ltac fields :=
  cbn [rtc hw calls fst snd
       _format _hoursPeriod _hours _minutes _seconds _subSeconds _year _month
       _day _wday _alarmDay _alarmHours _alarmMinutes _alarmSeconds
       _alarmSubSeconds _alarmPeriod _alarmMatch _clockSource _timeSet
       set_format set_hoursPeriod set_hours set_minutes set_seconds
       set_subSeconds set_year set_month set_day set_wday set_alarmDay
       set_alarmHours set_alarmMinutes set_alarmSeconds set_alarmSubSeconds
       set_alarmPeriod set_alarmMatch set_clockSource set_timeSet
       ht_hours ht_minutes ht_seconds ht_subSeconds ht_period
       hd_year hd_month hd_day hd_wday].

Lemma floor_above (ts : Z) :
  946684800 <= ts < 4294967296 ->
  (if u32 ts <? EPOCH_TIME_OFF then EPOCH_TIME_OFF else u32 ts) = ts.
Proof.
  intros H. rewrite (u32_small ts) by lia. unfold EPOCH_TIME_OFF.
  destruct (Z.ltb_spec ts 946684800); [lia | reflexivity].
Qed.

(** The machine after [setEpoch] of a second of 2000 to 2106. *)
Lemma setEpoch_exec (ts ss : Z) (m : Machine HW) :
  946684800 <= ts < 4294967296 ->
  let b := gmtime ts in
  let w := if tm_wday b =? 0 then u8 (RTC_WEEKDAY_SUNDAY hal)
           else u8 (tm_wday b) in
  let o := set_subSeconds (u32 ss)
             (set_seconds (u8 (tm_sec b))
                (set_minutes (u8 (tm_min b))
                   (set_hours (u8 (tm_hour b))
                      (set_wday w
                         (set_day (u8 (tm_mday b))
                            (set_month (u8 (tm_mon b + 1))
                               (set_year
                                  (u8 (tm_year b - EPOCH_TIME_YEAR_OFF))
                                  (rtc m)))))))) in
  let p := if AM_PM_eqb (_hoursPeriod o) AM then HOUR_AM else HOUR_PM in
  exec (setEpoch hal ts ss) m =
  mk_Machine (set_timeSet true o)
    (RTC_SetTime hal (_hours o) (_minutes o) (_seconds o) (_subSeconds o) p
       (RTC_SetDate hal (_year o) (_month o) (_day o) (_wday o) (hw m)))
    (calls m ++
     [Call_RTC_SetDate (_year o) (_month o) (_day o) (_wday o);
      Call_RTC_SetTime (_hours o) (_minutes o) (_seconds o) (_subSeconds o)
        p]).
Proof.
  intros H. cbv zeta. unfold setEpoch. rewrite (floor_above ts H).
  run. split_tests; rewrite <- app_assoc; reflexivity.
Qed.

(** What [getEpoch] returns, from what the driver answers. *)
Lemma getEpoch_eval (m : Machine HW) :
  let d := read_date hal m in
  let t := read_time hal (exec (syncDate hal) m) in
  eval (getEpoch hal) m =
  (u32 (mktime {| tm_sec := u8 (ht_seconds t);
                  tm_min := u8 (ht_minutes t);
                  tm_hour := u8 (ht_hours t);
                  tm_mday := u8 (hd_day d);
                  tm_mon := u8 (hd_month d) - 1;
                  tm_year := u8 (hd_year d) + EPOCH_TIME_YEAR_OFF;
                  tm_wday := 0;
                  tm_yday := 0;
                  tm_isdst := -1 |}),
   u32 (ht_subSeconds t)).
Proof. run. reflexivity. Qed.

Lemma syncDate_hw (m : Machine HW) :
  hw (exec (syncDate hal) m) =
  snd (RTC_GetDate hal
         (mk_hal_date (_year (rtc m)) (_month (rtc m)) (_day (rtc m))
            (_wday (rtc m))) (hw m)).
Proof. run. reflexivity. Qed.

(** C7: over hardware that holds what is written to it, [setEpoch ts]
    followed by [getEpoch] returns [ts] (and the subseconds given), for every
    [ts] from 946684800 up to the last [uint32_t]; in between, the cached
    fields are those of [gmtime ts], the year counted from 2000 and the month
    from 1, in 1..12. *)
Theorem setEpoch_getEpoch_round_trip (ts ss : Z) (m : Machine HW) :
  holds_writes hal ->
  946684800 <= ts < 4294967296 ->
  let m1 := exec (setEpoch hal ts ss) m in
  let b := gmtime ts in
  eval (getEpoch hal) m1 = (ts, u32 ss) /\
  2000 + _year (rtc m1) = 1900 + tm_year b /\
  (_month (rtc m1) = tm_mon b + 1 /\ 1 <= _month (rtc m1) <= 12) /\
  _day (rtc m1) = tm_mday b /\
  _hours (rtc m1) = tm_hour b /\
  _minutes (rtc m1) = tm_min b /\
  _seconds (rtc m1) = tm_sec b.
Proof.
  intros (time_of & date_of & G1 & G2 & G3 & S1 & S2 & S3) H.
  pose proof (gmtime_fields ts H) as F.
  pose proof (mktime_gmtime ts H) as R. cbv zeta in F, R.
  destruct F as (Hy & Hm & Hd & Hh & Hmi & Hs & Hw & _ & _).
  cbv zeta. rewrite getEpoch_eval. cbv zeta.
  unfold read_time, read_date. rewrite syncDate_hw.
  rewrite G1, G2, G3.
  rewrite (setEpoch_exec ts ss m H). cbv zeta. fields.
  rewrite S3, S1, S2. fields.
  unfold EPOCH_TIME_YEAR_OFF.
  rewrite !u8_idem, u32_idem.
  rewrite (u8_small (tm_year (gmtime ts) - 100)) by lia.
  rewrite (u8_small (tm_mon (gmtime ts) + 1)) by lia.
  rewrite (u8_small (tm_mday (gmtime ts))) by lia.
  rewrite (u8_small (tm_hour (gmtime ts))) by lia.
  rewrite (u8_small (tm_min (gmtime ts))) by lia.
  rewrite (u8_small (tm_sec (gmtime ts))) by lia.
  replace (tm_year (gmtime ts) - 100 + 100) with (tm_year (gmtime ts))
    by lia.
  replace (tm_mon (gmtime ts) + 1 - 1) with (tm_mon (gmtime ts)) by lia.
  rewrite R, (u32_small ts) by lia.
  repeat split; lia.
Qed.

(** ** The ranges of the cached fields *)

Lemma setEpoch_subSeconds (ts ss : Z) (m : Machine HW) :
  _subSeconds (rtc (exec (setEpoch hal ts ss) m)) = u32 ss.
Proof. run. split_tests; reflexivity. Qed.

(** C4 fails in [setEpoch]: it stores 1000 subseconds whatever the epoch
    and the machine, and the year 100 for the first second of 2100, so the
    ranges do not hold after it. *)
Theorem setEpoch_leaves_the_ranges (ts : Z) (m : Machine HW) :
  (_subSeconds (rtc (exec (setEpoch hal ts 1000) m)) = 1000 /\
   ~ ranges_ok (rtc (exec (setEpoch hal ts 1000) m))) /\
  (_year (rtc (exec (setEpoch hal 4102444800 0) m)) = 100 /\
   ~ ranges_ok (rtc (exec (setEpoch hal 4102444800 0) m))).
Proof.
  assert (E1 : _subSeconds (rtc (exec (setEpoch hal ts 1000) m)) = 1000)
    by (rewrite setEpoch_subSeconds; reflexivity).
  assert (E2 : _year (rtc (exec (setEpoch hal 4102444800 0) m)) = 100).
  { rewrite setEpoch_exec by lia. cbv zeta. fields. reflexivity. }
  split; (split; [assumption |]); unfold ranges_ok; lia.
Qed.

End Properties.

(** ** Every other member function keeps the ranges *)

Section Ranges.

Context {HW : Type}.
Variable hal : HAL HW.
Variable hdr : Header.
Hypothesis D : driver_in_range hal.

Ltac use_driver :=
  repeat match goal with
         | |- context [RTC_GetTime hal ?t ?h] =>
             lazymatch goal with
             | _ : 0 <= ht_seconds (fst (RTC_GetTime hal t h)) <= 59 |- _ =>
                 fail
             | _ => destruct (proj1 D t h) as (? & ? & ? & ?)
             end
         | |- context [RTC_GetDate hal ?d ?h] =>
             lazymatch goal with
             | _ : 1 <= hd_day (fst (RTC_GetDate hal d h)) <= 31 |- _ => fail
             | _ => destruct (proj2 D d h) as (? & ? & ?)
             end
         end.

Ltac tests_to_Z :=
  repeat match goal with
         | E : (_ && _) = true |- _ => apply andb_true_iff in E; destruct E
         | E : (_ <? _) = true |- _ => apply Z.ltb_lt in E
         | E : (_ <=? _) = true |- _ => apply Z.leb_le in E
         end.

Ltac ranges :=
  let m := fresh "m" in
  let R := fresh "R" in
  intros m R; destruct m as [[] ? ?]; unfold ranges_ok in *;
  cbn [rtc _seconds _minutes _hours _subSeconds _day _month _year] in R;
  run; split_tests; use_driver; tests_to_Z; unfold fst, snd in *;
  rewrite ?u8_idem, ?u32_idem;
  repeat match goal with
         | |- context [u8 ?x] =>
             lazymatch goal with
             | _ : 0 <= u8 x < 256 |- _ => fail
             | _ => pose proof (u8_range x)
             end
         | |- context [u32 ?x] =>
             lazymatch goal with
             | _ : 0 <= u32 x < 4294967296 |- _ => fail
             | _ => pose proof (u32_range x)
             end
         end;
  repeat match goal with
         | |- context [u8 ?x] => rewrite (u8_small x) by lia
         | |- context [u32 ?x] => rewrite (u32_small x) by lia
         end;
  lia.

Lemma getters_keep_ranges :
  keeps_ranges (getSubSeconds hal) /\ keeps_ranges (getSeconds hal) /\
  keeps_ranges (getMinutes hal) /\ keeps_ranges (getHours hal) /\
  keeps_ranges (getTime hal) /\ keeps_ranges (getWeekDay hal) /\
  keeps_ranges (getDay hal) /\ keeps_ranges (getMonth hal) /\
  keeps_ranges (getYear hal) /\ keeps_ranges (getDate hal) /\
  keeps_ranges (getAlarmSubSeconds hal hdr) /\
  keeps_ranges (getAlarmSeconds hal hdr) /\
  keeps_ranges (getAlarmMinutes hal hdr) /\
  keeps_ranges (getAlarmHours hal hdr) /\
  keeps_ranges (getAlarmDay hal hdr) /\
  keeps_ranges (HW := HW) getAlarmMonth /\
  keeps_ranges (HW := HW) getAlarmYear /\
  keeps_ranges (getEpoch hal) /\ keeps_ranges (getY2kEpoch hal).
Proof. repeat match goal with |- _ /\ _ => split end; ranges. Qed.

Lemma setters_keep_ranges
    (h mi s ss wd d mo y : Z) (p : AM_PM) :
  keeps_ranges (setSubSeconds hal ss) /\ keeps_ranges (setSeconds hal s) /\
  keeps_ranges (setMinutes hal mi) /\ keeps_ranges (setHours hal h p) /\
  keeps_ranges (setTime hal h mi s ss p) /\
  keeps_ranges (setWeekDay hal wd) /\ keeps_ranges (setDay hal d) /\
  keeps_ranges (setMonth hal mo) /\ keeps_ranges (setYear hal y) /\
  keeps_ranges (setDate hal d mo y) /\
  keeps_ranges (setDate_weekDay hal wd d mo y).
Proof. repeat match goal with |- _ /\ _ => split end; ranges. Qed.

Lemma keeps_ranges_bind {A B : Type} (c : M HW A) (k : A -> M HW B) :
  keeps_ranges c -> (forall a, keeps_ranges (k a)) -> keeps_ranges (bind c k).
Proof.
  intros Hc Hk m R. specialize (Hc m R). unfold exec, bind in *.
  destruct (c m) as [a m']. exact (Hk a m' Hc).
Qed.

Lemma setAlarmSubSeconds_keeps (ss : Z) :
  keeps_ranges (HW := HW) (setAlarmSubSeconds ss).
Proof. ranges. Qed.

Lemma setAlarmSeconds_keeps (s : Z) :
  keeps_ranges (HW := HW) (setAlarmSeconds s).
Proof. ranges. Qed.

Lemma setAlarmMinutes_keeps (mi : Z) :
  keeps_ranges (HW := HW) (setAlarmMinutes mi).
Proof. ranges. Qed.

Lemma setAlarmHours_keeps (h : Z) (p : AM_PM) :
  keeps_ranges (HW := HW) (setAlarmHours h p).
Proof. ranges. Qed.

Lemma setAlarmDay_keeps (d : Z) :
  keeps_ranges (HW := HW) (setAlarmDay d).
Proof. ranges. Qed.

Lemma enableAlarm_keeps (k : Alarm_Match) :
  keeps_ranges (enableAlarm hal hdr k).
Proof. destruct k; ranges. Qed.

Lemma alarm_setters_keep_ranges
    (h mi s ss d mo y ts : Z) (p : AM_PM) (k : Alarm_Match) :
  keeps_ranges (HW := HW) (setAlarmTime h mi s ss p) /\
  keeps_ranges (HW := HW) (setAlarmMonth mo) /\
  keeps_ranges (HW := HW) (setAlarmYear y) /\
  keeps_ranges (HW := HW) (setAlarmDate d mo y) /\
  keeps_ranges (setAlarmEpoch hal hdr ts k ss) /\
  keeps_ranges (disableAlarm hal).
Proof.
  do 4 (split; [ranges |]). split; [| ranges].
  unfold setAlarmEpoch. cbv zeta.
  apply keeps_ranges_bind; [apply setAlarmDay_keeps | intros _].
  apply keeps_ranges_bind; [apply setAlarmHours_keeps | intros _].
  apply keeps_ranges_bind; [apply setAlarmMinutes_keeps | intros _].
  apply keeps_ranges_bind; [apply setAlarmSeconds_keeps | intros _].
  apply keeps_ranges_bind; [apply setAlarmSubSeconds_keeps | intros _].
  apply enableAlarm_keeps.
Qed.

Lemma begin_end_keep_ranges (resetTime : bool) (format : Hour_Format) :
  keeps_ranges (begin hal resetTime format) /\
  keeps_ranges (begin_format hal format) /\
  keeps_ranges (end_ hal).
Proof. repeat match goal with |- _ /\ _ => split end; ranges. Qed.

End Ranges.


(** ** On the idealised RTC *)

Lemma Sim_holds_writes : holds_writes Sim.hal.
Proof. exists Sim.r_time, Sim.r_date. repeat split. Defined.

Lemma Sim_frozen_in_range : driver_in_range Sim.frozen.
Proof. split; intros; cbn; lia. Qed.

(** The frozen clock does not hold what is written to it: after [setEpoch]
    of the first second of 2000, [getEpoch] still returns the frozen time. *)
Lemma Sim_frozen_forgets :
  eval (getEpoch Sim.frozen)
    (exec (setEpoch Sim.frozen 946684800 0) (mk_Machine Sim.rtc0 tt [])) =
  (1718446805, 250).
Proof. vm_compute. reflexivity. Qed.

(** C1 as stated fails: 60 seconds are not stored as 59 and month 13 is not
    stored as 12; the cache keeps the 5 seconds and the month 6 of the
    hardware. *)
Lemma out_of_range_is_not_clamped :
  _seconds (rtc (exec (setSeconds Sim.hal 60) Sim.m0)) <>
    nearest_bound 0 59 60 /\
  _month (rtc (exec (setMonth Sim.hal 13) Sim.m0)) <> nearest_bound 1 12 13.
Proof. split; vm_compute; discriminate. Qed.

Lemma out_of_range_is_ignored_witness :
  (1000 <= 1000 < 4294967296 /\ 60 <= 60 < 256 /\ 60 <= 75 < 256 /\
   24 <= 24 < 256 /\ (0 = 0 \/ 7 < 0 < 256) /\ (32 = 0 \/ 31 < 32 < 256) /\
   (13 = 0 \/ 12 < 13 < 256) /\ 100 <= 100 < 256) /\
  _seconds (rtc (exec (setSeconds Sim.hal 60) Sim.m0)) = 5 /\
  _month (rtc (exec (setMonth Sim.hal 13) Sim.m0)) = 6.
Proof.
  split; [lia |].
  pose proof (out_of_range_is_ignored Sim.hal 1000 60 75 24 0 32 13 100 AM
                Sim.m0 ltac:(lia) ltac:(lia) ltac:(lia) ltac:(lia)
                ltac:(lia) ltac:(lia) ltac:(lia) ltac:(lia)) as W.
  cbv zeta in W.
  destruct W as (_ & W1 & _ & _ & _ & _ & W2 & _).
  split; [rewrite W1 | rewrite W2]; reflexivity.
Defined.

(** C2 as stated fails: [setAlarmSeconds 30] stores 30 in the cache, leaves
    the hardware alone and calls no set function of the driver. *)
Lemma setAlarmSeconds_does_not_write_through :
  _alarmSeconds (rtc (exec (setAlarmSeconds 30) Sim.m0)) = 30 /\
  hw (exec (setAlarmSeconds 30) Sim.m0) = hw Sim.m0 /\
  ~ HAL_set_called Sim.m0 (exec (setAlarmSeconds 30) Sim.m0).
Proof.
  split; [reflexivity |]. split; [reflexivity |].
  intros [c [Hin _]]. vm_compute in Hin. exact Hin.
Qed.

(** C3 as stated fails: [getAlarmMonth] returns 0 without a read of the
    hardware. *)
Lemma getAlarmMonth_does_not_sync :
  eval getAlarmMonth Sim.m0 = 0 /\
  ~ HAL_get_called Sim.m0 (exec getAlarmMonth Sim.m0).
Proof.
  split; [reflexivity |].
  intros [c [Hin _]]. vm_compute in Hin. exact Hin.
Qed.

(** [setEpoch] with 1000 subseconds, from a cache that is in range. *)
Lemma setEpoch_1000_subSeconds_example :
  ranges_ok (rtc Sim.m0) /\
  ~ ranges_ok (rtc (exec (setEpoch Sim.hal 946684800 1000) Sim.m0)).
Proof.
  split.
  - vm_compute. intuition discriminate.
  - intros (_ & _ & _ & H & _). vm_compute in H. destruct H as [_ H].
    apply H. reflexivity.
Qed.

Lemma epoch_floored_at_2000_witness :
  0 <= 5 < 946684800 /\
  setEpoch Sim.hal 5 250 Sim.m0 = setEpoch Sim.hal 946684800 250 Sim.m0 /\
  setAlarmEpoch Sim.hal Sim.hdr 5 MATCH_SS 250 Sim.m0 =
  setAlarmEpoch Sim.hal Sim.hdr 946684800 MATCH_SS 250 Sim.m0.
Proof.
  split; [lia |].
  apply (epoch_floored_at_2000 Sim.hal Sim.hdr 5 250 MATCH_SS Sim.m0).
  lia.
Defined.

Lemma setEpoch_getEpoch_round_trip_witness :
  holds_writes Sim.hal /\
  946684800 <= 1718446805 < 4294967296 /\
  eval (getEpoch Sim.hal) (exec (setEpoch Sim.hal 1718446805 250) Sim.m0) =
  (1718446805, 250).
Proof.
  split; [exact Sim_holds_writes |]. split; [lia |].
  exact (proj1 (setEpoch_getEpoch_round_trip Sim.hal 1718446805 250 Sim.m0
                  Sim_holds_writes ltac:(lia))).
Defined.

Lemma setEpoch_stores_any_subSeconds_witness :
  0 <= 1000 < 4294967296 /\
  _subSeconds (rtc (exec (setEpoch Sim.hal 946684800 1000) Sim.m0)) = 1000 /\
  _subSeconds (rtc (exec (setSubSeconds Sim.hal 1000) Sim.m0)) = 250 /\
  _alarmSubSeconds (rtc (exec (setAlarmSubSeconds 1000) Sim.m0)) = 0.
Proof.
  split; [lia |].
  exact (setEpoch_stores_any_subSeconds Sim.hal 946684800 1000 Sim.m0
           ltac:(lia)).
Defined.

(** * Further properties *)

Lemma driver_cached_period (p : hourAM_PM_t) :
  driver_period (cached_period p) = p.
Proof. destruct p; reflexivity. Qed.

Lemma cached_driver_period (p : AM_PM) :
  cached_period (driver_period p) = p.
Proof. destruct p; reflexivity. Qed.

Section Further.

Context {HW : Type}.
Variable hal : HAL HW.
Variable hdr : Header.

(** ** [begin] and [end] *)


(** X2: when [RTC_init] reports no (re)initialisation, [begin] only stores
    the format and marks the time as set: the rest of the cache is kept, the
    alarm is not initialised, and [RTC_init] is the only driver call. *)
Theorem begin_without_reinit_keeps_cache
    (resetTime : bool) (format : Hour_Format) (m : Machine HW) :
  init_reinit hal resetTime format m = false ->
  let m' := exec (begin hal resetTime format) m in
  rtc m' = set_timeSet true (set_format format (rtc m)) /\
  calls m' =
    calls m ++
    [Call_RTC_init (driver_format format) (driver_source (rtc m)) resetTime].
Proof.
  unfold init_reinit, driver_format, driver_source. intros E.
  destruct m as [[] h l]. cbv zeta.
  destruct resetTime; revert E; run; intros E; rewrite E; run; repeat split.
Qed.

(** X3: every set function of the clock and of the calendar, [setEpoch] and
    [setY2kEpoch] included, leaves the time marked as set, whatever its
    arguments (also when all are out of range); [end] marks it as not set
    and changes nothing else in the cache. *)
Theorem setters_mark_time_set
    (h mi s ss wd d mo y ts : Z) (p : AM_PM) (m : Machine HW) :
  (_timeSet (rtc (exec (setSubSeconds hal ss) m)) = true /\
   _timeSet (rtc (exec (setSeconds hal s) m)) = true /\
   _timeSet (rtc (exec (setMinutes hal mi) m)) = true /\
   _timeSet (rtc (exec (setHours hal h p) m)) = true /\
   _timeSet (rtc (exec (setTime hal h mi s ss p) m)) = true) /\
  (_timeSet (rtc (exec (setWeekDay hal wd) m)) = true /\
   _timeSet (rtc (exec (setDay hal d) m)) = true /\
   _timeSet (rtc (exec (setMonth hal mo) m)) = true /\
   _timeSet (rtc (exec (setYear hal y) m)) = true /\
   _timeSet (rtc (exec (setDate hal d mo y) m)) = true /\
   _timeSet (rtc (exec (setDate_weekDay hal wd d mo y) m)) = true) /\
  (_timeSet (rtc (exec (setEpoch hal ts ss) m)) = true /\
   _timeSet (rtc (exec (setY2kEpoch hal hdr ts) m)) = true) /\
  rtc (exec (end_ hal) m) = set_timeSet false (rtc m) /\
  calls (exec (end_ hal) m) = calls m ++ [Call_RTC_DeInit].
Proof.
  repeat match goal with |- _ /\ _ => split end;
    run; split_tests; reflexivity.
Qed.

(** ** What a member function leaves alone *)

Ltac frame :=
  let m := fresh "m" in
  intros m; unfold same_time, same_date, same_alarm, same_setup;
  run; split_tests; repeat split.

(** X4: the get and set functions of the clock change neither the cached
    calendar nor the cached alarm, nor the hour format and the clock
    source. *)
Theorem clock_functions_touch_clock_only
    (h mi s ss : Z) (p : AM_PM) :
  time_only (getSubSeconds hal) /\ time_only (getSeconds hal) /\
  time_only (getMinutes hal) /\ time_only (getHours hal) /\
  time_only (getTime hal) /\
  time_only (setSubSeconds hal ss) /\ time_only (setSeconds hal s) /\
  time_only (setMinutes hal mi) /\ time_only (setHours hal h p) /\
  time_only (setTime hal h mi s ss p).
Proof. repeat match goal with |- _ /\ _ => split end; frame. Qed.

(** X5: the get and set functions of the calendar change neither the cached
    clock nor the cached alarm, nor the hour format and the clock source. *)
Theorem calendar_functions_touch_calendar_only (wd d mo y : Z) :
  date_only (getWeekDay hal) /\ date_only (getDay hal) /\
  date_only (getMonth hal) /\ date_only (getYear hal) /\
  date_only (getDate hal) /\
  date_only (setWeekDay hal wd) /\ date_only (setDay hal d) /\
  date_only (setMonth hal mo) /\ date_only (setYear hal y) /\
  date_only (setDate hal d mo y) /\
  date_only (setDate_weekDay hal wd d mo y).
Proof. repeat match goal with |- _ /\ _ => split end; frame. Qed.

Lemma alarm_only_bind {A B : Type} (c : M HW A) (k : A -> M HW B) :
  alarm_only c -> (forall a, alarm_only (k a)) -> alarm_only (bind c k).
Proof.
  intros Hc Hk m. specialize (Hc m). unfold exec, bind in *.
  destruct (c m) as [a m']. specialize (Hk a m'). unfold exec in Hk.
  cbn [snd] in Hc.
  unfold same_time, same_date, same_setup in *.
  intuition congruence.
Qed.

Lemma enableAlarm_alarm_only (k : Alarm_Match) :
  alarm_only (enableAlarm hal hdr k).
Proof. destruct k; frame. Qed.

(** X6: the functions of the alarm (get, set, [setAlarmEpoch], the alarm
    switch) change neither the cached clock nor the cached calendar, nor the
    hour format, the clock source and the mark that the time is set. *)
Theorem alarm_functions_touch_alarm_only
    (h mi s ss d mo y ts : Z) (p : AM_PM) (k : Alarm_Match) :
  (alarm_only (getAlarmSubSeconds hal hdr) /\
   alarm_only (getAlarmSeconds hal hdr) /\
   alarm_only (getAlarmMinutes hal hdr) /\
   alarm_only (getAlarmHours hal hdr) /\
   alarm_only (getAlarmDay hal hdr) /\
   alarm_only (HW := HW) getAlarmMonth /\
   alarm_only (HW := HW) getAlarmYear) /\
  (alarm_only (HW := HW) (setAlarmSubSeconds ss) /\
   alarm_only (HW := HW) (setAlarmSeconds s) /\
   alarm_only (HW := HW) (setAlarmMinutes mi) /\
   alarm_only (HW := HW) (setAlarmHours h p) /\
   alarm_only (HW := HW) (setAlarmTime h mi s ss p) /\
   alarm_only (HW := HW) (setAlarmDay d) /\
   alarm_only (HW := HW) (setAlarmMonth mo) /\
   alarm_only (HW := HW) (setAlarmYear y) /\
   alarm_only (HW := HW) (setAlarmDate d mo y)) /\
  (alarm_only (setAlarmEpoch hal hdr ts k ss) /\
   alarm_only (enableAlarm hal hdr k) /\
   alarm_only (disableAlarm hal)).
Proof.
  split; [| split].
  - repeat match goal with |- _ /\ _ => split end; frame.
  - repeat match goal with |- _ /\ _ => split end; frame.
  - split; [| split; [apply enableAlarm_alarm_only | frame]].
    unfold setAlarmEpoch. cbv zeta.
    do 5 (apply alarm_only_bind; [frame | intros _]).
    apply enableAlarm_alarm_only.
Qed.

(** ** What the set functions write *)

Ltac tests_true :=
  repeat match goal with
         | H : 0 <= ?x < _ |- context [u8 ?x] => rewrite (u8_small x) by lia
         | H : 0 <= ?x < _ |- context [u32 ?x] =>
             rewrite (u32_small x) by lia
         | H : 1 <= ?x <= _ |- context [u8 ?x] => rewrite (u8_small x) by lia
         | |- context [?a <? ?b] =>
             replace (a <? b) with true by (symmetry; apply Z.ltb_lt; lia)
         | |- context [?a <=? ?b] =>
             replace (a <=? b) with true by (symmetry; apply Z.leb_le; lia)
         end.

Ltac same_period :=
  try match goal with
      | |- context [hourAM_PM_eqb ?p HOUR_AM] => destruct p
      end.

(** X7: a set function of one field, given a value in range, reads the
    hardware and writes back what it has just read with that one field
    replaced: the other fields written are the fresh ones of the hardware,
    not those of the cache. *)
Theorem one_field_setters_write_back_fresh_fields
    (ss s mi wd d mo y : Z) (m : Machine HW) :
  0 <= ss < 1000 ->
  0 <= s < 60 ->
  0 <= mi < 60 ->
  1 <= wd <= 7 ->
  1 <= d <= 31 ->
  1 <= mo <= 12 ->
  0 <= y < 100 ->
  let t := read_time hal m in
  let c := read_date hal m in
  (new_calls m (exec (setSubSeconds hal ss) m) =
     [Call_RTC_GetTime;
      Call_RTC_SetTime (u8 (ht_hours t)) (u8 (ht_minutes t))
        (u8 (ht_seconds t)) ss (ht_period t)] /\
   new_calls m (exec (setSeconds hal s) m) =
     [Call_RTC_GetTime;
      Call_RTC_SetTime (u8 (ht_hours t)) (u8 (ht_minutes t)) s
        (u32 (ht_subSeconds t)) (ht_period t)] /\
   new_calls m (exec (setMinutes hal mi) m) =
     [Call_RTC_GetTime;
      Call_RTC_SetTime (u8 (ht_hours t)) mi (u8 (ht_seconds t))
        (u32 (ht_subSeconds t)) (ht_period t)]) /\
  (new_calls m (exec (setWeekDay hal wd) m) =
     [Call_RTC_GetDate;
      Call_RTC_SetDate (u8 (hd_year c)) (u8 (hd_month c)) (u8 (hd_day c))
        wd] /\
   new_calls m (exec (setDay hal d) m) =
     [Call_RTC_GetDate;
      Call_RTC_SetDate (u8 (hd_year c)) (u8 (hd_month c)) d
        (u8 (hd_wday c))] /\
   new_calls m (exec (setMonth hal mo) m) =
     [Call_RTC_GetDate;
      Call_RTC_SetDate (u8 (hd_year c)) mo (u8 (hd_day c))
        (u8 (hd_wday c))] /\
   new_calls m (exec (setYear hal y) m) =
     [Call_RTC_GetDate;
      Call_RTC_SetDate y (u8 (hd_month c)) (u8 (hd_day c))
        (u8 (hd_wday c))]).
Proof.
  intros Hss Hs Hmi Hwd Hd Hmo Hy. cbv zeta.
  repeat match goal with |- _ /\ _ => split end;
    apply new_calls_app;
    unfold setSubSeconds, setSeconds, setMinutes, setWeekDay, setDay,
      setMonth, setYear; cbv zeta; tests_true; cbn [andb]; run;
    rewrite <- ?app_assoc; same_period; reflexivity.
Qed.

(** X8: the period argument of [setHours], [setTime], [setAlarmHours] and
    [setAlarmTime] is stored only in the 12-hour format; in the 24-hour
    format the clock keeps the period read from the hardware and the alarm
    keeps its cached period. *)
Theorem period_is_stored_in_12_hour_format_only
    (h mi s ss : Z) (p : AM_PM) (m : Machine HW) :
  let kept := cached_period (ht_period (read_time hal m)) in
  _hoursPeriod (rtc (exec (setHours hal h p) m)) =
    match _format (rtc m) with HOUR_12 => p | HOUR_24 => kept end /\
  _hoursPeriod (rtc (exec (setTime hal h mi s ss p) m)) =
    match _format (rtc m) with HOUR_12 => p | HOUR_24 => kept end /\
  _alarmPeriod (rtc (exec (setAlarmHours h p) m)) =
    match _format (rtc m) with
    | HOUR_12 => p
    | HOUR_24 => _alarmPeriod (rtc m)
    end /\
  _alarmPeriod (rtc (exec (setAlarmTime h mi s ss p) m)) =
    match _format (rtc m) with
    | HOUR_12 => p
    | HOUR_24 => _alarmPeriod (rtc m)
    end.
Proof.
  cbv zeta. unfold cached_period. destruct m as [[] hw0 l].
  repeat match goal with |- _ /\ _ => split end;
    run; split_tests; try reflexivity;
    match goal with f : Hour_Format |- _ => destruct f end;
    try discriminate; reflexivity.
Qed.

(** X9: [setTime] and both [setDate]s test each argument on its own: an
    argument in range is stored even when another one is out of range and
    dropped, and no test relates the day to the month and the year.  The
    three-argument [setDate] keeps the week day read from the hardware. *)
Theorem composite_setters_validate_each_field
    (h mi s ss wd d mo y : Z) (p : AM_PM) (m : Machine HW) :
  let t := read_time hal m in
  let c := read_date hal m in
  let pick (ok : bool) (new old : Z) := if ok then new else old in
  (let o := rtc (exec (setTime hal h mi s ss p) m) in
   _hours o = pick (valid_hours (u8 h)) (u8 h) (u8 (ht_hours t)) /\
   _minutes o = pick (valid_minutes (u8 mi)) (u8 mi) (u8 (ht_minutes t)) /\
   _seconds o = pick (valid_seconds (u8 s)) (u8 s) (u8 (ht_seconds t)) /\
   _subSeconds o =
     pick (valid_subSeconds (u32 ss)) (u32 ss) (u32 (ht_subSeconds t))) /\
  (let o := rtc (exec (setDate hal d mo y) m) in
   _day o = pick (valid_day (u8 d)) (u8 d) (u8 (hd_day c)) /\
   _month o = pick (valid_month (u8 mo)) (u8 mo) (u8 (hd_month c)) /\
   _year o = pick (valid_year (u8 y)) (u8 y) (u8 (hd_year c)) /\
   _wday o = u8 (hd_wday c)) /\
  (let o := rtc (exec (setDate_weekDay hal wd d mo y) m) in
   _day o = pick (valid_day (u8 d)) (u8 d) (u8 (hd_day c)) /\
   _month o = pick (valid_month (u8 mo)) (u8 mo) (u8 (hd_month c)) /\
   _year o = pick (valid_year (u8 y)) (u8 y) (u8 (hd_year c)) /\
   _wday o = pick (valid_weekDay (u8 wd)) (u8 wd) (u8 (hd_wday c))).
Proof.
  cbv zeta.
  unfold valid_hours, valid_minutes, valid_seconds, valid_subSeconds,
    valid_day, valid_month, valid_year, valid_weekDay.
  repeat match goal with |- _ /\ _ => split end;
    run; split_tests; reflexivity.
Qed.

(** ** The alarm match read back from the hardware *)

Lemma Alarm_Match_of_uint8_value (k : Alarm_Match) :
  Alarm_Match_values_distinct hdr ->
  Alarm_Match_of_uint8 hdr (Alarm_Match_value hdr k) = k.
Proof.
  intros [_ I]. unfold Alarm_Match_of_uint8.
  destruct k;
    repeat match goal with
           | |- context [?a =? ?b] =>
               destruct (Z.eqb_spec a b) as [E | E];
               [ try reflexivity; apply I in E; discriminate E
               | try (exfalso; apply E; reflexivity); clear E ]
           end.
Qed.

Lemma Alarm_Match_of_uint8_other (v : Z) :
  (forall k, v <> Alarm_Match_value hdr k) ->
  Alarm_Match_of_uint8 hdr v = MATCH_OFF.
Proof.
  intros H. unfold Alarm_Match_of_uint8.
  repeat match goal with
         | |- context [v =? ?b] =>
             destruct (Z.eqb_spec v b) as [E | E];
             [exfalso; exact (H _ E) | clear E]
         end.
  reflexivity.
Qed.

Lemma syncAlarmTime_match (m : Machine HW) :
  _alarmMatch (rtc (exec (syncAlarmTime hal hdr) m)) =
  Alarm_Match_of_uint8 hdr (u8 (snd (read_alarm hal m))).
Proof. run. reflexivity. Qed.

(** X10: when the enumerators have pairwise distinct values, a
    synchronisation of the alarm sets the cached match to the enumerator
    whose value the driver reports. *)
Theorem syncAlarmTime_decodes_match (k : Alarm_Match) (m : Machine HW) :
  Alarm_Match_values_distinct hdr ->
  u8 (snd (read_alarm hal m)) = Alarm_Match_value hdr k ->
  _alarmMatch (rtc (exec (syncAlarmTime hal hdr) m)) = k.
Proof.
  intros V E. rewrite syncAlarmTime_match, E.
  apply Alarm_Match_of_uint8_value, V.
Qed.

(** X11: when the driver reports a match that is the value of no
    enumerator, a synchronisation of the alarm sets the cached match to
    [MATCH_OFF]. *)
Theorem syncAlarmTime_unknown_match_is_off (m : Machine HW) :
  (forall k, u8 (snd (read_alarm hal m)) <> Alarm_Match_value hdr k) ->
  _alarmMatch (rtc (exec (syncAlarmTime hal hdr) m)) = MATCH_OFF.
Proof.
  intros H. rewrite syncAlarmTime_match.
  apply Alarm_Match_of_uint8_other, H.
Qed.

Ltac project :=
  cbn [rtc hw calls fst snd
       _format _hoursPeriod _hours _minutes _seconds _subSeconds _year _month
       _day _wday _alarmDay _alarmHours _alarmMinutes _alarmSeconds
       _alarmSubSeconds _alarmPeriod _alarmMatch _clockSource _timeSet
       set_format set_hoursPeriod set_hours set_minutes set_seconds
       set_subSeconds set_year set_month set_day set_wday set_alarmDay
       set_alarmHours set_alarmMinutes set_alarmSeconds set_alarmSubSeconds
       set_alarmPeriod set_alarmMatch set_clockSource set_timeSet
       ht_hours ht_minutes ht_seconds ht_subSeconds ht_period
       hd_year hd_month hd_day hd_wday
       ha_day ha_hours ha_minutes ha_seconds ha_subSeconds ha_period].

Lemma syncAlarmTime_rtc (m : Machine HW) :
  let a := fst (read_alarm hal m) in
  let v := u8 (snd (read_alarm hal m)) in
  rtc (exec (syncAlarmTime hal hdr) m) =
  set_alarmMatch (Alarm_Match_of_uint8 hdr v)
    (set_alarmPeriod (cached_period (ha_period a))
       (set_alarmSubSeconds (u32 (ha_subSeconds a))
          (set_alarmSeconds (u8 (ha_seconds a))
             (set_alarmMinutes (u8 (ha_minutes a))
                (set_alarmHours (u8 (ha_hours a))
                   (set_alarmDay (u8 (ha_day a)) (rtc m))))))).
Proof. unfold cached_period. run. reflexivity. Qed.

(** X12: over hardware that holds the alarm started, the cached alarm
    survives a synchronisation after [enableAlarm match], for every match
    but [MATCH_OFF]: the cache after [syncAlarmTime] is the cache before
    it, so every alarm get function then returns the value set. *)
Theorem enableAlarm_then_sync_keeps_cache
    (k : Alarm_Match) (m : Machine HW) :
  holds_alarm hal ->
  Alarm_Match_values_distinct hdr ->
  alarm_typed (rtc m) ->
  k <> MATCH_OFF ->
  let m1 := exec (enableAlarm hal hdr k) m in
  rtc (exec (syncAlarmTime hal hdr) m1) = rtc m1 /\
  _alarmMatch (rtc (exec (syncAlarmTime hal hdr) m1)) = k /\
  eval (getAlarmDay hal hdr) m1 = _alarmDay (rtc m) /\
  eval (getAlarmHours hal hdr) m1 =
    (_alarmHours (rtc m), _alarmPeriod (rtc m)) /\
  eval (getAlarmMinutes hal hdr) m1 = _alarmMinutes (rtc m) /\
  eval (getAlarmSeconds hal hdr) m1 = _alarmSeconds (rtc m) /\
  eval (getAlarmSubSeconds hal hdr) m1 = _alarmSubSeconds (rtc m).
Proof.
  intros (alarm_of & G & S) V T Hk. cbv zeta.
  assert (E : rtc (exec (syncAlarmTime hal hdr)
                        (exec (enableAlarm hal hdr k) m)) =
              rtc (exec (enableAlarm hal hdr k) m)).
  { rewrite syncAlarmTime_rtc. cbv zeta. unfold read_alarm.
    rewrite G. rewrite (enableAlarm_StartAlarm hal hdr k m Hk). cbv zeta.
    project. rewrite S. project.
    destruct T as (T1 & T2 & T3 & T4 & T5).
    rewrite u8_idem, (u8_small _ (proj1 V k)),
      (Alarm_Match_of_uint8_value k V).
    rewrite (u8_small _ T1), (u8_small _ T2), (u8_small _ T3),
      (u8_small _ T4), (u32_small _ T5).
    destruct (rtc m) as [? ? ? ? ? ? ? ? ? ? ? ? ? ? ? ap ? ? ?].
    project. destruct ap; reflexivity. }
  assert (F : rtc (exec (enableAlarm hal hdr k) m) =
              set_alarmMatch k (rtc m))
    by (rewrite (enableAlarm_StartAlarm hal hdr k m Hk); reflexivity).
  assert (Q : forall A (f : STM32RTC -> A) (g : M HW A),
             (forall m0,
                eval g m0 = f (rtc (exec (syncAlarmTime hal hdr) m0))) ->
             eval g (exec (enableAlarm hal hdr k) m) =
             f (set_alarmMatch k (rtc m))).
  { intros A f g Hg. rewrite Hg, E, F. reflexivity. }
  split; [exact E |]. split; [rewrite E, F; reflexivity |].
  repeat split.
  - apply (Q _ _alarmDay). intros m0. run. reflexivity.
  - apply (Q _ (fun o => (_alarmHours o, _alarmPeriod o))). intros m0. run.
    reflexivity.
  - apply (Q _ _alarmMinutes). intros m0. run. reflexivity.
  - apply (Q _ _alarmSeconds). intros m0. run. reflexivity.
  - apply (Q _ _alarmSubSeconds). intros m0. run. reflexivity.
Qed.

(** ** The alarm from an epoch *)

Ltac alarm_epoch_tests ts H :=
  let F := fresh "F" in
  pose proof (gmtime_fields ts H) as F; cbv zeta in F;
  destruct F as (_ & _ & ? & ? & ? & ? & _);
  unfold setAlarmEpoch; rewrite (floor_above ts H); cbv zeta;
  unfold setAlarmDay, setAlarmHours, setAlarmMinutes, setAlarmSeconds;
  cbv zeta;
  rewrite (u8_small (tm_mday (gmtime ts))) by lia;
  rewrite (u8_small (tm_hour (gmtime ts))) by lia;
  rewrite (u8_small (tm_min (gmtime ts))) by lia;
  rewrite (u8_small (tm_sec (gmtime ts))) by lia;
  replace (1 <=? tm_mday (gmtime ts)) with true
    by (symmetry; apply Z.leb_le; lia);
  replace (tm_mday (gmtime ts) <=? 31) with true
    by (symmetry; apply Z.leb_le; lia);
  replace (tm_hour (gmtime ts) <? 24) with true
    by (symmetry; apply Z.ltb_lt; lia);
  replace (tm_min (gmtime ts) <? 60) with true
    by (symmetry; apply Z.ltb_lt; lia);
  replace (tm_sec (gmtime ts) <? 60) with true
    by (symmetry; apply Z.ltb_lt; lia);
  cbn [andb].

Lemma setAlarmEpoch_rtc (ts ss : Z) (k : Alarm_Match) (m : Machine HW) :
  946684800 <= ts < 4294967296 ->
  let b := gmtime ts in
  let o := rtc m in
  rtc (exec (setAlarmEpoch hal hdr ts k ss) m) =
  set_alarmMatch k
    (set_alarmSubSeconds
       (if u32 ss <? 1000 then u32 ss else _alarmSubSeconds o)
       (set_alarmSeconds (tm_sec b)
          (set_alarmMinutes (tm_min b)
             (set_alarmPeriod
                (match _format o with
                 | HOUR_12 => setAlarmHours_default_period hdr
                 | HOUR_24 => _alarmPeriod o
                 end)
                (set_alarmHours (tm_hour b)
                   (set_alarmDay (tm_mday b) o)))))).
Proof.
  intros H. cbv zeta. alarm_epoch_tests ts H.
  destruct m as [[] h l]. destruct k; run; split_tests;
    match goal with f : Hour_Format |- _ => destruct f end;
    try discriminate; reflexivity.
Qed.

Lemma setAlarmEpoch_calls (ts ss : Z) (k : Alarm_Match) (m : Machine HW) :
  946684800 <= ts < 4294967296 ->
  let o := rtc (exec (setAlarmEpoch hal hdr ts k ss) m) in
  calls (exec (setAlarmEpoch hal hdr ts k ss) m) =
  calls m ++
  match k with
  | MATCH_OFF => [Call_RTC_StopAlarm]
  | _ =>
      [Call_RTC_StartAlarm (_alarmDay o) (_alarmHours o) (_alarmMinutes o)
         (_alarmSeconds o) (_alarmSubSeconds o)
         (driver_period (_alarmPeriod o)) (u8 (Alarm_Match_value hdr k))]
  end.
Proof.
  intros H. cbv zeta. unfold driver_period. alarm_epoch_tests ts H.
  destruct k; run; split_tests; reflexivity.
Qed.

(** X13: [setAlarmEpoch] of a second [ts] from 946684800 on sets the cached
    alarm to the day of the month, the hour, the minute and the second of
    [ts] in UTC and the cached match to the match given; the subseconds are
    stored only below 1000.  It then makes one driver call: [RTC_StopAlarm]
    for [MATCH_OFF], else [RTC_StartAlarm] with the cached alarm. *)
Theorem setAlarmEpoch_sets_day_and_time_of_day
    (ts ss : Z) (k : Alarm_Match) (m : Machine HW) :
  946684800 <= ts < 4294967296 ->
  let b := gmtime ts in
  let o := rtc (exec (setAlarmEpoch hal hdr ts k ss) m) in
  _alarmDay o = tm_mday b /\
  _alarmHours o = tm_hour b /\
  _alarmMinutes o = tm_min b /\
  _alarmSeconds o = tm_sec b /\
  _alarmSubSeconds o =
    (if u32 ss <? 1000 then u32 ss else _alarmSubSeconds (rtc m)) /\
  _alarmMatch o = k /\
  new_calls m (exec (setAlarmEpoch hal hdr ts k ss) m) =
    match k with
    | MATCH_OFF => [Call_RTC_StopAlarm]
    | _ =>
        [Call_RTC_StartAlarm (tm_mday b) (tm_hour b) (tm_min b) (tm_sec b)
           (_alarmSubSeconds o) (driver_period (_alarmPeriod o))
           (u8 (Alarm_Match_value hdr k))]
    end.
Proof.
  intros H. cbv zeta.
  assert (N : new_calls m (exec (setAlarmEpoch hal hdr ts k ss) m) =
              match k with
              | MATCH_OFF => [Call_RTC_StopAlarm]
              | _ =>
                  let o := rtc (exec (setAlarmEpoch hal hdr ts k ss) m) in
                  [Call_RTC_StartAlarm (_alarmDay o) (_alarmHours o)
                     (_alarmMinutes o) (_alarmSeconds o) (_alarmSubSeconds o)
                     (driver_period (_alarmPeriod o))
                     (u8 (Alarm_Match_value hdr k))]
              end).
  { apply new_calls_app. rewrite (setAlarmEpoch_calls ts ss k m H).
    destruct k; reflexivity. }
  rewrite N. clear N.
  rewrite (setAlarmEpoch_rtc ts ss k m H). cbv zeta.
  repeat split.
Qed.

(** X14: [setAlarmEpoch] ignores the month and the year of the epoch: two
    seconds from 946684800 on with the same day of the month and the same
    time of day give the same machine (cache, hardware and driver calls). *)
Theorem setAlarmEpoch_ignores_month_and_year
    (ts ts' ss : Z) (k : Alarm_Match) (m : Machine HW) :
  946684800 <= ts < 4294967296 ->
  946684800 <= ts' < 4294967296 ->
  tm_mday (gmtime ts) = tm_mday (gmtime ts') ->
  tm_hour (gmtime ts) = tm_hour (gmtime ts') ->
  tm_min (gmtime ts) = tm_min (gmtime ts') ->
  tm_sec (gmtime ts) = tm_sec (gmtime ts') ->
  setAlarmEpoch hal hdr ts k ss m = setAlarmEpoch hal hdr ts' k ss m.
Proof.
  intros H H' Ed Eh Emi Es. unfold setAlarmEpoch.
  rewrite (floor_above ts H), (floor_above ts' H'). cbv zeta.
  rewrite Ed, Eh, Emi, Es. reflexivity.
Qed.

(** ** [setEpoch] before 2100 *)

Lemma civil_before_2100_checked :
  forall_from (Z.to_nat 36525) 10957 civil_before_2100 = true.
Proof. vm_compute. reflexivity. Qed.

Lemma gmtime_year_before_2100 (ts : Z) :
  946684800 <= ts < 4102444800 -> tm_year (gmtime ts) <= 199.
Proof.
  intros H.
  assert (Hz : 10957 <= ts / 86400 < 10957 + 36525).
  { split.
    - apply Z.div_le_lower_bound; lia.
    - apply Z.div_lt_upper_bound; lia. }
  assert (C : civil_before_2100 (ts / 86400) = true).
  { apply (forall_from_spec _ _ _ civil_before_2100_checked).
    rewrite Z2Nat.id by lia. exact Hz. }
  unfold civil_before_2100 in C. unfold gmtime.
  destruct (civil_from_days (ts / 86400)) as [[y mo] d].
  cbn [tm_year]. apply Z.leb_le in C. lia.
Qed.

Lemma setEpoch_floor (ts ss : Z) (m : Machine HW) :
  0 <= ts < 946684800 ->
  setEpoch hal ts ss m = setEpoch hal 946684800 ss m.
Proof.
  intros H. unfold setEpoch. rewrite (floor_below ts H). reflexivity.
Qed.

(** X15: [setEpoch] of a second before 2100 with subseconds below 1000
    leaves the cached seconds, minutes, hours, subseconds, day, month and
    year in their ranges, whatever the cache was before. *)
Theorem setEpoch_before_2100_in_ranges (ts ss : Z) (m : Machine HW) :
  0 <= ts < 4102444800 ->
  0 <= ss < 1000 ->
  ranges_ok (rtc (exec (setEpoch hal ts ss) m)).
Proof.
  assert (A : forall t, 946684800 <= t < 4102444800 -> 0 <= ss < 1000 ->
              ranges_ok (rtc (exec (setEpoch hal t ss) m))).
  { intros t H Hss.
    pose proof (gmtime_fields t ltac:(lia)) as F. cbv zeta in F.
    destruct F as (Hy & Hm & Hd & Hh & Hmi & Hs & _).
    pose proof (gmtime_year_before_2100 t H) as Hy'.
    rewrite setEpoch_exec by lia. cbv zeta. unfold ranges_ok. project.
    unfold EPOCH_TIME_YEAR_OFF.
    rewrite (u8_small (tm_year (gmtime t) - 100)) by lia.
    rewrite (u8_small (tm_mon (gmtime t) + 1)) by lia.
    rewrite (u8_small (tm_mday (gmtime t))) by lia.
    rewrite (u8_small (tm_hour (gmtime t))) by lia.
    rewrite (u8_small (tm_min (gmtime t))) by lia.
    rewrite (u8_small (tm_sec (gmtime t))) by lia.
    rewrite (u32_small ss) by lia. lia. }
  intros H Hss. destruct (Z_lt_ge_dec ts 946684800) as [L | G].
  - rewrite (f_equal snd (setEpoch_floor ts ss m ltac:(lia))
             : exec (setEpoch hal ts ss) m
               = exec (setEpoch hal 946684800 ss) m).
    apply A; lia.
  - apply A; lia.
Qed.

(** X21: [setEpoch] and [setY2kEpoch] change neither the cached alarm nor
    the hour format and the clock source, and they keep the cached period:
    the period they pass to [RTC_SetTime] is the one cached before the
    call. *)
Theorem setEpoch_keeps_alarm_and_period (ts ss : Z) (m : Machine HW) :
  (let o := rtc (exec (setEpoch hal ts ss) m) in
   same_alarm (rtc m) o /\ same_setup (rtc m) o /\
   _hoursPeriod o = _hoursPeriod (rtc m)) /\
  (let o := rtc (exec (setY2kEpoch hal hdr ts) m) in
   same_alarm (rtc m) o /\ same_setup (rtc m) o /\
   _hoursPeriod o = _hoursPeriod (rtc m)) /\
  (exists y mo d w h mi s sub,
     new_calls m (exec (setEpoch hal ts ss) m) =
     [Call_RTC_SetDate y mo d w;
      Call_RTC_SetTime h mi s sub (driver_period (_hoursPeriod (rtc m)))]).
Proof.
  cbv zeta. unfold same_alarm, same_setup, driver_period.
  split; [| split].
  - run. split_tests; repeat split.
  - run. split_tests; repeat split.
  - destruct (setEpoch_wrote hal ts ss m) as [_ E]. cbv zeta in E.
    do 8 eexists. apply new_calls_app. rewrite E.
    assert (P : _hoursPeriod (rtc (exec (setEpoch hal ts ss) m)) =
                _hoursPeriod (rtc m))
      by (run; split_tests; reflexivity).
    rewrite P. reflexivity.
Qed.

(** X16: when the driver's [RTC_WEEKDAY_SUNDAY] is 7, [setEpoch] of a
    second from 946684800 on stores the week day of that second, Monday 1
    to Sunday 7. *)
Theorem setEpoch_week_day (ts ss : Z) (m : Machine HW) :
  RTC_WEEKDAY_SUNDAY hal = 7 ->
  946684800 <= ts < 4294967296 ->
  _wday (rtc (exec (setEpoch hal ts ss) m)) = (ts / 86400 + 3) mod 7 + 1 /\
  1 <= _wday (rtc (exec (setEpoch hal ts ss) m)) <= 7.
Proof.
  intros E7 H.
  assert (W : tm_wday (gmtime ts) = (ts / 86400 + 4) mod 7).
  { unfold gmtime. destruct (civil_from_days (ts / 86400)) as [[y mo] d].
    reflexivity. }
  rewrite setEpoch_exec by lia. cbv zeta. project. rewrite W, E7.
  pose proof (Z.mod_pos_bound (ts / 86400 + 4) 7 ltac:(lia)) as B4.
  pose proof (Z.mod_pos_bound (ts / 86400 + 3) 7 ltac:(lia)) as B3.
  pose proof (Z.div_mod (ts / 86400 + 4) 7 ltac:(lia)) as D4.
  pose proof (Z.div_mod (ts / 86400 + 3) 7 ltac:(lia)) as D3.
  destruct (Z.eqb_spec ((ts / 86400 + 4) mod 7) 0) as [E0 | N0].
  - rewrite (u8_small 7) by lia. lia.
  - rewrite u8_small by lia. lia.
Qed.

(** ** The epoch since 2000 *)

Lemma getEpoch_after_setEpoch (ts ss : Z) (m : Machine HW) :
  holds_writes hal ->
  946684800 <= ts < 4294967296 ->
  eval (getEpoch hal) (exec (setEpoch hal ts ss) m) = (ts, u32 ss).
Proof.
  intros (time_of & date_of & G1 & G2 & G3 & S1 & S2 & S3) H.
  pose proof (gmtime_fields ts H) as F.
  pose proof (mktime_gmtime ts H) as R. cbv zeta in F, R.
  destruct F as (Hy & Hm & Hd & Hh & Hmi & Hs & Hw & _ & _).
  rewrite getEpoch_eval. cbv zeta.
  unfold read_time, read_date. rewrite syncDate_hw.
  rewrite G1, G2, G3.
  rewrite (setEpoch_exec hal ts ss m H). cbv zeta. project.
  rewrite S3, S1, S2. project.
  unfold EPOCH_TIME_YEAR_OFF.
  rewrite !u8_idem, u32_idem.
  rewrite (u8_small (tm_year (gmtime ts) - 100)) by lia.
  rewrite (u8_small (tm_mon (gmtime ts) + 1)) by lia.
  rewrite (u8_small (tm_mday (gmtime ts))) by lia.
  rewrite (u8_small (tm_hour (gmtime ts))) by lia.
  rewrite (u8_small (tm_min (gmtime ts))) by lia.
  rewrite (u8_small (tm_sec (gmtime ts))) by lia.
  replace (tm_year (gmtime ts) - 100 + 100) with (tm_year (gmtime ts))
    by lia.
  replace (tm_mon (gmtime ts) + 1 - 1) with (tm_mon (gmtime ts)) by lia.
  rewrite R, (u32_small ts) by lia. reflexivity.
Qed.

Lemma getY2kEpoch_eval (m : Machine HW) :
  eval (getY2kEpoch hal) m =
  u32 (fst (eval (getEpoch hal) m) - EPOCH_TIME_OFF).
Proof. run. reflexivity. Qed.

(** X17: over hardware that holds what is written to it, [setY2kEpoch ts]
    followed by [getY2kEpoch] returns [ts], for every [ts] up to the last
    second a [uint32_t] epoch can hold (3348282495 seconds after 2000). *)
Theorem setY2kEpoch_getY2kEpoch_round_trip (ts : Z) (m : Machine HW) :
  holds_writes hal ->
  0 <= ts < 3348282496 ->
  eval (getY2kEpoch hal) (exec (setY2kEpoch hal hdr ts) m) = ts.
Proof.
  intros W H. rewrite getY2kEpoch_eval. unfold setY2kEpoch.
  rewrite (u32_small ts) by lia. unfold EPOCH_TIME_OFF.
  rewrite (u32_small (ts + 946684800)) by lia.
  rewrite (getEpoch_after_setEpoch _ _ _ W) by lia.
  cbn [fst]. replace (ts + 946684800 - 946684800) with ts by lia.
  apply u32_small. lia.
Qed.

(** X18: past that second the sum wraps around: [setY2kEpoch ts] for [ts]
    from 3348282496 on sets the clock to the first second of 2000, as
    [setEpoch 946684800] does. *)
Theorem setY2kEpoch_wraps_to_2000 (ts : Z) (m : Machine HW) :
  3348282496 <= ts < 4294967296 ->
  setY2kEpoch hal hdr ts m =
  setEpoch hal 946684800 (setEpoch_default_subSeconds hdr) m.
Proof.
  intros H. unfold setY2kEpoch. rewrite (u32_small ts) by lia.
  unfold EPOCH_TIME_OFF.
  assert (E : u32 (ts + 946684800) = ts + 946684800 - 4294967296).
  { unfold u32. symmetry.
    apply (Z.mod_unique (ts + 946684800) 4294967296 1); lia. }
  rewrite E. apply setEpoch_floor. lia.
Qed.

(** ** The epoch of a clock in range *)

Lemma month_starts_checked :
  forall_from (Z.to_nat 1200) 0 month_start_ok = true.
Proof. vm_compute. reflexivity. Qed.

Lemma days_from_civil_day (y mo d : Z) :
  days_from_civil y mo d = days_from_civil y mo 1 + (d - 1).
Proof. unfold days_from_civil. cbv zeta. lia. Qed.

Lemma month_start (y mo : Z) :
  0 <= y <= 99 -> 1 <= mo <= 12 ->
  10957 <= days_from_civil (2000 + y) mo 1 <= 47451.
Proof.
  intros Hy Hm.
  assert (C : month_start_ok (y * 12 + (mo - 1)) = true).
  { apply (forall_from_spec _ _ _ month_starts_checked).
    rewrite Z2Nat.id by lia. lia. }
  unfold month_start_ok in C.
  assert (Eq : (y * 12 + (mo - 1)) / 12 = y).
  { symmetry. apply (Z.div_unique_pos _ 12 y (mo - 1)); lia. }
  assert (Er : (y * 12 + (mo - 1)) mod 12 = mo - 1).
  { symmetry. apply (Z.mod_unique_pos _ 12 y (mo - 1)); lia. }
  rewrite Eq, Er in C. replace (mo - 1 + 1) with mo in C by lia.
  apply andb_true_iff in C as [C1 C2].
  apply Z.leb_le in C1, C2. lia.
Qed.

(** X19: when the driver returns a clock and a calendar in range,
    [getEpoch] returns a second of 2000 to 2099, so nothing wraps around:
    [getY2kEpoch] returns exactly 946684800 less. *)
Theorem getEpoch_of_clock_in_range (m : Machine HW) :
  driver_in_range hal ->
  946684800 <= fst (eval (getEpoch hal) m) < 4102444800 /\
  eval (getY2kEpoch hal) m = fst (eval (getEpoch hal) m) - 946684800.
Proof.
  intros [Dt Dd].
  assert (B : 946684800 <= fst (eval (getEpoch hal) m) < 4102444800).
  { rewrite getEpoch_eval. cbv zeta. cbn [fst].
    unfold read_date, read_time.
    match goal with
    | |- context [RTC_GetDate hal ?d ?h] =>
        destruct (Dd d h) as (Hd & Hmo & Hy)
    end.
    match goal with
    | |- context [RTC_GetTime hal ?t ?h] =>
        destruct (Dt t h) as (Hs & Hmi & Hh & _)
    end.
    repeat match goal with
           | H : _ <= ?x <= _ |- context [u8 ?x] =>
               rewrite (u8_small x) by lia
           end.
    unfold mktime, EPOCH_TIME_YEAR_OFF.
    cbn [tm_year tm_mon tm_mday tm_hour tm_min tm_sec].
    match goal with
    | |- context [days_from_civil (1900 + (?y + 100) + (?mo - 1) / 12)
                    ((?mo - 1) mod 12 + 1) ?d] =>
        rewrite (Z.div_small (mo - 1) 12) by lia;
        rewrite (Z.mod_small (mo - 1) 12) by lia;
        replace (1900 + (y + 100) + 0) with (2000 + y) by lia;
        replace (mo - 1 + 1) with mo by lia;
        rewrite (days_from_civil_day (2000 + y) mo d);
        pose proof (month_start y mo ltac:(lia) ltac:(lia))
    end.
    rewrite u32_small by lia. lia. }
  split; [exact B |].
  rewrite getY2kEpoch_eval. unfold EPOCH_TIME_OFF. apply u32_small. lia.
Qed.

(** ** Set, then get *)

Lemma getTime_eval (m : Machine HW) :
  let t := read_time hal m in
  eval (getTime hal) m =
  (u8 (ht_hours t), u8 (ht_minutes t), u8 (ht_seconds t),
   u32 (ht_subSeconds t), cached_period (ht_period t)).
Proof. unfold cached_period. run. reflexivity. Qed.

Lemma getDate_eval (m : Machine HW) :
  let c := read_date hal m in
  eval (getDate hal) m =
  (u8 (hd_wday c), u8 (hd_day c), u8 (hd_month c), u8 (hd_year c)).
Proof. run. reflexivity. Qed.

Lemma one_field_setters_rtc (ss s mi wd d mo y : Z) (m : Machine HW) :
  0 <= ss < 1000 ->
  0 <= s < 60 ->
  0 <= mi < 60 ->
  1 <= wd <= 7 ->
  1 <= d <= 31 ->
  1 <= mo <= 12 ->
  0 <= y < 100 ->
  let t := rtc (exec (syncTime hal) m) in
  let c := rtc (exec (syncDate hal) m) in
  (rtc (exec (setSubSeconds hal ss) m) =
     set_timeSet true (set_subSeconds ss t) /\
   rtc (exec (setSeconds hal s) m) = set_timeSet true (set_seconds s t) /\
   rtc (exec (setMinutes hal mi) m) = set_timeSet true (set_minutes mi t)) /\
  (rtc (exec (setWeekDay hal wd) m) = set_timeSet true (set_wday wd c) /\
   rtc (exec (setDay hal d) m) = set_timeSet true (set_day d c) /\
   rtc (exec (setMonth hal mo) m) = set_timeSet true (set_month mo c) /\
   rtc (exec (setYear hal y) m) = set_timeSet true (set_year y c)).
Proof.
  intros Hss Hs Hmi Hwd Hd Hmo Hy. cbv zeta.
  repeat match goal with |- _ /\ _ => split end;
    unfold setSubSeconds, setSeconds, setMinutes, setWeekDay, setDay,
      setMonth, setYear; cbv zeta; tests_true; cbn [andb]; run;
    reflexivity.
Qed.

(** X20: over hardware that holds what is written to it, [getTime] after a
    set function of one clock field given a value in range returns that
    value for the field and, for the other fields, the time the hardware
    had before the call; likewise [getDate] after a set function of one
    calendar field. *)
Theorem set_one_field_then_get (ss s mi wd d mo y : Z) (m : Machine HW) :
  holds_writes hal ->
  0 <= ss < 1000 ->
  0 <= s < 60 ->
  0 <= mi < 60 ->
  1 <= wd <= 7 ->
  1 <= d <= 31 ->
  1 <= mo <= 12 ->
  0 <= y < 100 ->
  let t := read_time hal m in
  let c := read_date hal m in
  let H := u8 (ht_hours t) in
  let MI := u8 (ht_minutes t) in
  let S := u8 (ht_seconds t) in
  let SS := u32 (ht_subSeconds t) in
  let P := cached_period (ht_period t) in
  let WD := u8 (hd_wday c) in
  let D := u8 (hd_day c) in
  let MO := u8 (hd_month c) in
  let Y := u8 (hd_year c) in
  (eval (getTime hal) (exec (setSubSeconds hal ss) m) = (H, MI, S, ss, P) /\
   eval (getTime hal) (exec (setSeconds hal s) m) = (H, MI, s, SS, P) /\
   eval (getTime hal) (exec (setMinutes hal mi) m) = (H, mi, S, SS, P)) /\
  (eval (getDate hal) (exec (setWeekDay hal wd) m) = (wd, D, MO, Y) /\
   eval (getDate hal) (exec (setDay hal d) m) = (WD, d, MO, Y) /\
   eval (getDate hal) (exec (setMonth hal mo) m) = (WD, D, mo, Y) /\
   eval (getDate hal) (exec (setYear hal y) m) = (WD, D, MO, y)).
Proof.
  intros (time_of & date_of & G1 & G2 & G3 & S1 & S2 & S3)
    Hss Hs Hmi Hwd Hd Hmo Hy.
  pose proof (one_field_setters_rtc ss s mi wd d mo y m
                Hss Hs Hmi Hwd Hd Hmo Hy) as R.
  cbv zeta in R. destruct R as ((R1 & R2 & R3) & (R4 & R5 & R6 & R7)).
  pose proof (proj1 (syncTime_exec hal m)) as ET.
  pose proof (proj1 (syncDate_exec hal m)) as ED.
  cbv zeta in ET, ED. cbv zeta.
  split; repeat match goal with |- _ /\ _ => split end.
  - destruct (setSubSeconds_wrote hal ss m) as [E _]. cbv zeta in E.
    rewrite getTime_eval. cbv zeta. unfold read_time at 1 2 3 4 5.
    rewrite G1, E, S2, R1, ET. project. unfold cached_period.
    rewrite !u8_idem, (u32_small ss) by lia.
    destruct (ht_period (read_time hal m)); reflexivity.
  - destruct (setSeconds_wrote hal s m) as [E _]. cbv zeta in E.
    rewrite getTime_eval. cbv zeta. unfold read_time at 1 2 3 4 5.
    rewrite G1, E, S2, R2, ET. project. unfold cached_period.
    rewrite !u8_idem, u32_idem, (u8_small s) by lia.
    destruct (ht_period (read_time hal m)); reflexivity.
  - destruct (setMinutes_wrote hal mi m) as [E _]. cbv zeta in E.
    rewrite getTime_eval. cbv zeta. unfold read_time at 1 2 3 4 5.
    rewrite G1, E, S2, R3, ET. project. unfold cached_period.
    rewrite !u8_idem, u32_idem, (u8_small mi) by lia.
    destruct (ht_period (read_time hal m)); reflexivity.
  - destruct (setWeekDay_wrote hal wd m) as [E _]. cbv zeta in E.
    rewrite getDate_eval. cbv zeta. unfold read_date at 1 2 3 4.
    rewrite G2, E, S1, R4, ED. project.
    rewrite !u8_idem, (u8_small wd) by lia. reflexivity.
  - destruct (setDay_wrote hal d m) as [E _]. cbv zeta in E.
    rewrite getDate_eval. cbv zeta. unfold read_date at 1 2 3 4.
    rewrite G2, E, S1, R5, ED. project.
    rewrite !u8_idem, (u8_small d) by lia. reflexivity.
  - destruct (setMonth_wrote hal mo m) as [E _]. cbv zeta in E.
    rewrite getDate_eval. cbv zeta. unfold read_date at 1 2 3 4.
    rewrite G2, E, S1, R6, ED. project.
    rewrite !u8_idem, (u8_small mo) by lia. reflexivity.
  - destruct (setYear_wrote hal y m) as [E _]. cbv zeta in E.
    rewrite getDate_eval. cbv zeta. unfold read_date at 1 2 3 4.
    rewrite G2, E, S1, R7, ED. project.
    rewrite !u8_idem, (u8_small y) by lia. reflexivity.
Qed.

End Further.

(** ** The further properties on the idealised RTC *)

Lemma Sim_values_distinct : Alarm_Match_values_distinct Sim.hdr.
Proof.
  split.
  - intros k. destruct k; cbn; lia.
  - intros k k'. destruct k, k'; cbn; intros E;
      first [reflexivity | discriminate E].
Defined.

Lemma Sim_holds_alarm : holds_alarm Sim.hal.
Proof.
  exists (fun r => (Sim.r_alarm r, Sim.r_mask r)). split; reflexivity.
Defined.


Lemma begin_without_reinit_keeps_cache_witness :
  init_reinit Sim.hal false HOUR_12 Sim.m0 = false /\
  rtc (exec (begin Sim.hal false HOUR_12) Sim.m0) =
  set_timeSet true (set_format HOUR_12 Sim.rtc0).
Proof.
  split; [reflexivity |].
  exact (proj1 (begin_without_reinit_keeps_cache Sim.hal false HOUR_12
                  Sim.m0 eq_refl)).
Defined.

Lemma one_field_setters_write_back_fresh_fields_witness :
  (0 <= 500 < 1000 /\ 0 <= 30 < 60 /\ 0 <= 45 < 60 /\ 1 <= 3 <= 7 /\
   1 <= 20 <= 31 /\ 1 <= 11 <= 12 /\ 0 <= 30 < 100) /\
  new_calls Sim.m0 (exec (setSeconds Sim.hal 30) Sim.m0) =
    [Call_RTC_GetTime; Call_RTC_SetTime 10 20 30 250 HOUR_AM] /\
  new_calls Sim.m0 (exec (setMonth Sim.hal 11) Sim.m0) =
    [Call_RTC_GetDate; Call_RTC_SetDate 24 11 15 6].
Proof.
  split; [lia |].
  pose proof (one_field_setters_write_back_fresh_fields Sim.hal
                500 30 45 3 20 11 30 Sim.m0
                ltac:(lia) ltac:(lia) ltac:(lia) ltac:(lia) ltac:(lia)
                ltac:(lia) ltac:(lia)) as W.
  cbv zeta in W. destruct W as ((_ & W1 & _) & (_ & _ & W2 & _)).
  split; [rewrite W1 | rewrite W2]; reflexivity.
Defined.

Lemma syncAlarmTime_decodes_match_witness :
  let m1 := exec (enableAlarm Sim.hal Sim.hdr MATCH_MMSS) Sim.m0 in
  Alarm_Match_values_distinct Sim.hdr /\
  u8 (snd (read_alarm Sim.hal m1)) = Alarm_Match_value Sim.hdr MATCH_MMSS /\
  _alarmMatch (rtc (exec (syncAlarmTime Sim.hal Sim.hdr) m1)) = MATCH_MMSS.
Proof.
  cbv zeta. split; [exact Sim_values_distinct |]. split; [reflexivity |].
  exact (syncAlarmTime_decodes_match Sim.hal Sim.hdr MATCH_MMSS
           (exec (enableAlarm Sim.hal Sim.hdr MATCH_MMSS) Sim.m0)
           Sim_values_distinct eq_refl).
Defined.

Lemma syncAlarmTime_unknown_match_is_off_witness :
  let m2 :=
    mk_Machine (set_alarmMatch MATCH_SS Sim.rtc0)
      (Sim.mk_Regs (Sim.r_time Sim.regs0) (Sim.r_date Sim.regs0)
         (Sim.r_alarm Sim.regs0) 2 true) [] in
  (forall k, u8 (snd (read_alarm Sim.hal m2)) <> Alarm_Match_value Sim.hdr k) /\
  _alarmMatch (rtc m2) = MATCH_SS /\
  _alarmMatch (rtc (exec (syncAlarmTime Sim.hal Sim.hdr) m2)) = MATCH_OFF.
Proof.
  cbv zeta.
  assert (H : forall k,
             u8 (snd (read_alarm Sim.hal
                        (mk_Machine (set_alarmMatch MATCH_SS Sim.rtc0)
                           (Sim.mk_Regs (Sim.r_time Sim.regs0)
                              (Sim.r_date Sim.regs0) (Sim.r_alarm Sim.regs0)
                              2 true) []))) <>
             Alarm_Match_value Sim.hdr k)
    by (intros k; destruct k; vm_compute; discriminate).
  split; [exact H |]. split; [reflexivity |].
  exact (syncAlarmTime_unknown_match_is_off Sim.hal Sim.hdr _ H).
Defined.

Lemma enableAlarm_then_sync_keeps_cache_witness :
  let m1 := exec (setAlarmSeconds 30) Sim.m0 in
  holds_alarm Sim.hal /\
  Alarm_Match_values_distinct Sim.hdr /\
  alarm_typed (rtc m1) /\
  MATCH_SS <> MATCH_OFF /\
  eval (getAlarmSeconds Sim.hal Sim.hdr)
    (exec (enableAlarm Sim.hal Sim.hdr MATCH_SS) m1) = 30.
Proof.
  cbv zeta.
  assert (T : alarm_typed (rtc (exec (setAlarmSeconds 30) Sim.m0)))
    by (vm_compute; intuition discriminate).
  assert (N : MATCH_SS <> MATCH_OFF) by discriminate.
  split; [exact Sim_holds_alarm |]. split; [exact Sim_values_distinct |].
  split; [exact T |]. split; [exact N |].
  pose proof (enableAlarm_then_sync_keeps_cache Sim.hal Sim.hdr MATCH_SS
                (exec (setAlarmSeconds 30) Sim.m0)
                Sim_holds_alarm Sim_values_distinct T N) as W.
  cbv zeta in W. destruct W as (_ & _ & _ & _ & _ & W & _).
  rewrite W. reflexivity.
Defined.

Lemma setAlarmEpoch_sets_day_and_time_of_day_witness :
  946684800 <= 1718446805 < 4294967296 /\
  (let o := rtc (exec (setAlarmEpoch Sim.hal Sim.hdr 1718446805 MATCH_HHMMSS
                         250) Sim.m0) in
   _alarmDay o = 15 /\ _alarmHours o = 10 /\ _alarmMinutes o = 20 /\
   _alarmSeconds o = 5 /\ _alarmSubSeconds o = 250) /\
  new_calls Sim.m0
    (exec (setAlarmEpoch Sim.hal Sim.hdr 1718446805 MATCH_HHMMSS 250)
       Sim.m0) =
  [Call_RTC_StartAlarm 15 10 20 5 250 HOUR_AM 7].
Proof.
  split; [lia |].
  pose proof (setAlarmEpoch_sets_day_and_time_of_day Sim.hal Sim.hdr
                1718446805 250 MATCH_HHMMSS Sim.m0 ltac:(lia)) as W.
  cbv zeta in W. destruct W as (W1 & W2 & W3 & W4 & W5 & _ & W6).
  cbv zeta. rewrite W1, W2, W3, W4, W5, W6. repeat split.
Defined.

Lemma setAlarmEpoch_ignores_month_and_year_witness :
  946684800 <= 1718446805 < 4294967296 /\
  946684800 <= 1721038805 < 4294967296 /\
  tm_mon (gmtime 1718446805) <> tm_mon (gmtime 1721038805) /\
  setAlarmEpoch Sim.hal Sim.hdr 1718446805 MATCH_DHHMMSS 0 Sim.m0 =
  setAlarmEpoch Sim.hal Sim.hdr 1721038805 MATCH_DHHMMSS 0 Sim.m0.
Proof.
  split; [lia |]. split; [lia |].
  split; [vm_compute; discriminate |].
  exact (setAlarmEpoch_ignores_month_and_year Sim.hal Sim.hdr
           1718446805 1721038805 0 MATCH_DHHMMSS Sim.m0
           ltac:(lia) ltac:(lia) eq_refl eq_refl eq_refl eq_refl).
Defined.

Lemma setEpoch_before_2100_in_ranges_witness :
  0 <= 1718446805 < 4102444800 /\ 0 <= 250 < 1000 /\
  ranges_ok (rtc (exec (setEpoch Sim.hal 1718446805 250) Sim.m0)).
Proof.
  split; [lia |]. split; [lia |].
  exact (setEpoch_before_2100_in_ranges Sim.hal 1718446805 250 Sim.m0
           ltac:(lia) ltac:(lia)).
Defined.

Lemma setEpoch_week_day_witness :
  RTC_WEEKDAY_SUNDAY Sim.hal = 7 /\
  946684800 <= 1718533205 < 4294967296 /\
  tm_wday (gmtime 1718533205) = 0 /\
  _wday (rtc (exec (setEpoch Sim.hal 1718533205 0) Sim.m0)) = 7.
Proof.
  split; [reflexivity |]. split; [lia |]. split; [reflexivity |].
  rewrite (proj1 (setEpoch_week_day Sim.hal 1718533205 0 Sim.m0 eq_refl
                    ltac:(lia))).
  reflexivity.
Defined.

Lemma setY2kEpoch_getY2kEpoch_round_trip_witness :
  holds_writes Sim.hal /\
  0 <= 771762005 < 3348282496 /\
  eval (getY2kEpoch Sim.hal)
    (exec (setY2kEpoch Sim.hal Sim.hdr 771762005) Sim.m0) = 771762005.
Proof.
  split; [exact Sim_holds_writes |]. split; [lia |].
  exact (setY2kEpoch_getY2kEpoch_round_trip Sim.hal Sim.hdr 771762005 Sim.m0
           Sim_holds_writes ltac:(lia)).
Defined.

Lemma setY2kEpoch_wraps_to_2000_witness :
  3348282496 <= 4000000000 < 4294967296 /\
  (let o := rtc (exec (setY2kEpoch Sim.hal Sim.hdr 4000000000) Sim.m0) in
   _year o = 0 /\ _month o = 1 /\ _day o = 1 /\
   _hours o = 0 /\ _minutes o = 0 /\ _seconds o = 0).
Proof.
  split; [lia |]. cbv zeta.
  unfold exec.
  rewrite (setY2kEpoch_wraps_to_2000 Sim.hal Sim.hdr 4000000000 Sim.m0
             ltac:(lia)).
  repeat split.
Defined.

Lemma getEpoch_of_clock_in_range_witness :
  driver_in_range Sim.frozen /\
  eval (getY2kEpoch Sim.frozen) (mk_Machine Sim.rtc0 tt []) =
  fst (eval (getEpoch Sim.frozen) (mk_Machine Sim.rtc0 tt [])) - 946684800.
Proof.
  split; [exact Sim_frozen_in_range |].
  exact (proj2 (getEpoch_of_clock_in_range Sim.frozen
                  (mk_Machine Sim.rtc0 tt []) Sim_frozen_in_range)).
Defined.

Lemma set_one_field_then_get_witness :
  holds_writes Sim.hal /\
  (0 <= 500 < 1000 /\ 0 <= 30 < 60 /\ 0 <= 45 < 60 /\ 1 <= 3 <= 7 /\
   1 <= 20 <= 31 /\ 1 <= 11 <= 12 /\ 0 <= 30 < 100) /\
  eval (getTime Sim.hal) (exec (setSeconds Sim.hal 30) Sim.m0) =
    (10, 20, 30, 250, AM) /\
  eval (getDate Sim.hal) (exec (setMonth Sim.hal 11) Sim.m0) =
    (6, 15, 11, 24).
Proof.
  split; [exact Sim_holds_writes |]. split; [lia |].
  pose proof (set_one_field_then_get Sim.hal 500 30 45 3 20 11 30 Sim.m0
                Sim_holds_writes
                ltac:(lia) ltac:(lia) ltac:(lia) ltac:(lia) ltac:(lia)
                ltac:(lia) ltac:(lia)) as W.
  cbv zeta in W. destruct W as ((_ & W1 & _) & (_ & _ & W2 & _)).
  split; [rewrite W1 | rewrite W2]; reflexivity.
Defined.

(** [setDate] with 31 February: each argument is in its range, so all three
    are stored and written. *)
Lemma setDate_31_February_example :
  eval (getDate Sim.hal) (exec (setDate Sim.hal 31 2 24) Sim.m0) =
  (6, 31, 2, 24).
Proof. reflexivity. Qed.
